(** * Flight passenger predictions: the windowing transform, the split,
      the training loop and the evaluation cell

    A shallow embedding of [Week4/exercise_3_RNNs/FlightPassengerPredictions.ipynb].
    Arrays are lists (a two-dimensional array is the list of its rows), Python
    exceptions are a [Raise] result, and the cells that drive PyTorch are
    programs of a small state-and-exception monad whose state holds the
    model parameters, the accumulated gradients, the optimizer state, the
    autograd mode, what was printed, and a log of the library calls made. *)

From Stdlib Require Import String.
From Stdlib Require Import List Arith ZArith Lia Bool SpecFloat QArith Qabs.
Import ListNotations.
Close Scope Q_scope.

Set Implicit Arguments.

(** ** Python results *)

Inductive exn : Type :=
| IndexError
| ValueError
| RuntimeError
| OverflowError.

Inductive result (A : Type) : Type :=
| Ok (a : A)
| Raise (e : exn).

Arguments Ok {A} a.
Arguments Raise {A} e.

Module Res.

Definition bind {A B : Type} (r : result A) (k : A -> result B) : result B :=
  match r with
  | Ok a => k a
  | Raise e => Raise e
  end.

(** A Python [for x in xs: acc = body x acc] whose body may raise. *)
Fixpoint for_each {A St : Type} (xs : list A) (body : A -> St -> result St)
    (s : St) : result St :=
  match xs with
  | [] => Ok s
  | x :: xs' => bind (body x s) (for_each xs' body)
  end.

(** [[f x for x in xs]] where [f] may raise. *)
Fixpoint traverse {A B : Type} (f : A -> result B) (xs : list A) : result (list B) :=
  match xs with
  | [] => Ok []
  | x :: xs' => bind (f x) (fun y => bind (traverse f xs') (fun ys => Ok (y :: ys)))
  end.

End Res.

Notation "x <- c ;; k" := (Res.bind c (fun x => k))
  (at level 61, c at next level, right associativity).
Notation "' p <- c ;; k" := (Res.bind c (fun x => match x with p => k end))
  (at level 61, p pattern, c at next level, right associativity).

(** ** Python sequences *)

(** [range(n)] for a Python int [n]: empty when [n <= 0]. *)
Definition range (n : Z) : list nat := seq 0 (Z.to_nat n).

(** [len(xs)] as a Python int. *)
Definition len {A : Type} (xs : list A) : Z := Z.of_nat (length xs).

(** [xs[lo:hi]] for bounds [0 <= lo], [0 <= hi]: the elements at the
    positions [lo <= k < min hi (len xs)]; never raises. *)
Definition slice {A : Type} (lo hi : nat) (xs : list A) : list A :=
  firstn (hi - lo) (skipn lo xs).

(** ** Two-dimensional arrays *)

Section Arrays.

Variable A : Type.

(** A two-dimensional array is the list of its rows. *)
Definition array2 : Type := list (list A).

(** The array of shape [(N, 1)] holding a series, as [dataframe.values]
    returns it for the one column read with [usecols=[1]]. *)
Definition column (series : list A) : array2 := map (fun x => [x]) series.

(** [xs[k]] for [0 <= k]. *)
Definition item (xs : list A) (k : nat) : result A :=
  match nth_error xs k with
  | None => Raise IndexError
  | Some x => Ok x
  end.

(** [arr[r, c]] for [0 <= r], [0 <= c]. *)
Definition get2 (arr : array2) (r c : nat) : result A :=
  match nth_error arr r with
  | None => Raise IndexError
  | Some row => item row c
  end.

(** [arr[lo:hi, c]]: column [c] of the rows [lo .. hi-1]. *)
Definition get_rows_col (arr : array2) (lo hi c : nat) : result (list A) :=
  Res.traverse (fun row => item row c) (slice lo hi arr).

(** ** [create_dataset]

<<
def create_dataset(dataset, look_back=1):
    dataX, dataY = [], []
    for i in range(len(dataset)-look_back-1):
        a = dataset[i:(i+look_back), 0]
        dataX.append(a)
        dataY.append(dataset[i + look_back, 0])
    return np.array(dataX), np.array(dataY)
>> *)

Definition create_dataset_body (dataset : array2) (look_back : nat) (i : nat)
    (acc : list (list A) * list A) : result (list (list A) * list A) :=
  let '(dataX, dataY) := acc in
  a <- get_rows_col dataset i (i + look_back) 0 ;;
  let dataX := dataX ++ [a] in
  y <- get2 dataset (i + look_back) 0 ;;
  Ok (dataX, dataY ++ [y]).

Definition create_dataset (dataset : array2) (look_back : nat)
  : result (list (list A) * list A) :=
  Res.for_each (range (len dataset - Z.of_nat look_back - 1))
    (create_dataset_body dataset look_back) ([], []).

(** The pairs the transform is to return, [count] of them: the windows
    [series[i:i+L]] for [i = 0 .. count-1] and the labels
    [series[L:L+count]]. *)
Definition windows_of (series : list A) (L count : nat) : list (list A) :=
  map (fun i => slice i (i + L) series) (seq 0 count).

Definition labels_of (series : list A) (L count : nat) : list A :=
  slice L (L + count) series.

(** [max(0, N - L - 1)]. *)
Definition pair_count (N L : nat) : nat :=
  Z.to_nat (Z.max 0 (Z.of_nat N - Z.of_nat L - 1)).

End Arrays.

Arguments column {A} series.
Arguments item {A} xs k.
Arguments get2 {A} arr r c.
Arguments get_rows_col {A} arr lo hi c.
Arguments create_dataset {A} dataset look_back.
Arguments create_dataset_body {A} dataset look_back i acc.
Arguments windows_of {A} series L count.
Arguments labels_of {A} series L count.

(** ** The train/test split

<<
train_size = int(len(dataset) * 0.67)
test_size = len(dataset) - train_size
train, test = dataset[0:train_size,:], dataset[train_size:len(dataset),:]
>>

    [len(dataset) * 0.67] is a binary64 product and [int] truncates it, so
    the size is computed here with the IEEE operations of [SpecFloat]. *)

Module Float64.

Definition prec : Z := 53.
Definition emax : Z := 1024.

(** Python's conversion of an int to a float (round to nearest even). *)
Definition of_int (n : Z) : spec_float := binary_normalize prec emax n 0 false.

Definition mul (x y : spec_float) : spec_float := SFmul prec emax x y.

(** The literal [0.67]: [0x1.570a3d70a3d71p-1 = 6034823500676465 * 2^-53]. *)
Definition lit_0_67 : spec_float := S754_finite false 6034823500676465 (-53).

(** [int(x)]: truncation towards zero; Python raises on infinities and NaN. *)
Definition to_int (x : spec_float) : result Z :=
  match x with
  | S754_zero _ => Ok 0%Z
  | S754_finite s m e => Ok (cond_Zopp s (Z.shiftl (Zpos m) e))
  | S754_infinity _ => Raise OverflowError
  | S754_nan => Raise ValueError
  end.

(** [n * x] for an int [n] and a float [x]: an int beyond the binary64
    range cannot be converted. *)
Definition int_mul (n : Z) (x : spec_float) : result spec_float :=
  match of_int n with
  | S754_infinity _ => Raise OverflowError
  | f => Ok (mul f x)
  end.

End Float64.

(** [int(n * 0.67)] for a Python int [n]. *)
Definition int_times_0_67 (n : Z) : result Z :=
  p <- Float64.int_mul n Float64.lit_0_67 ;;
  Float64.to_int p.

(** [train_size = int(len(dataset) * 0.67)], used as a slice bound. *)
Definition train_size (n : nat) : result nat :=
  k <- int_times_0_67 (Z.of_nat n) ;;
  Ok (Z.to_nat k).

(** [f] holds at [start], [start + 1], ..., [start + count - 1]. *)
Fixpoint holds_from (count : nat) (start : Z) (f : Z -> bool) : bool :=
  match count with
  | O => true
  | S count' => f start && holds_from count' (start + 1) f
  end.

(** [int(n * 0.67)] is the exact [floor(67 n / 100)]. *)
Definition times_0_67_exact (n : Z) : bool :=
  match int_times_0_67 n with
  | Ok k => (k =? 67 * n / 100)%Z
  | Raise _ => false
  end.

(** ** The min-max scaler *)

Module MinMax.

(** Modelled from the spec: the state of the fit scaler, which scikit-learn
    keeps and the repository does not contain; the spec describes it as the
    observed minimum and maximum of the series it was fit on. *)
Record state : Type := {
  data_min : Q;
  data_max : Q
}.


(** Modelled from the spec: the inverse of the normalization, which maps a
    normalized value back to the raw scale. *)
Definition inverse_transform (sc : state) (y : Q) : Q :=
  (y * (data_max sc - data_min sc) + data_min sc)%Q.







End MinMax.

Section Split.

Variable A : Type.

Record partitions : Type := {
  part_train_size : nat;
  part_test_size : Z;
  part_train : array2 A;
  part_test : array2 A
}.

Definition split (dataset : array2 A) : result partitions :=
  ts <- train_size (length dataset) ;;
  let test_size := (len dataset - Z.of_nat ts)%Z in
  Ok {| part_train_size := ts;
        part_test_size := test_size;
        part_train := slice 0 ts dataset;
        part_test := slice ts (length dataset) dataset |}.

(** Every entry of every window becomes a one-feature step. *)
Definition wrap_features (X : list (list A)) : list (list (list A)) :=
  map (map (fun x => [x])) X.

(** [np.reshape(X, (X.shape[0], X.shape[1], 1))]. [np.array([])] has the
    shape [(0,)], so [X.shape[1]] raises when there is no window. *)
Definition reshape_samples (X : list (list A)) : result (list (list (list A))) :=
  match X with
  | [] => Raise IndexError
  | _ :: _ => Ok (wrap_features X)
  end.

Record windows : Type := {
  trainX : list (list (list A));
  trainY : list A;
  testX : list (list (list A));
  testY : list A
}.

(** The cell that splits the series and builds the windows. *)
Definition prepare (dataset : array2 A) (look_back : nat) : result windows :=
  parts <- split dataset ;;
  '(trX, trY) <- create_dataset (part_train parts) look_back ;;
  '(teX, teY) <- create_dataset (part_test parts) look_back ;;
  trX3 <- reshape_samples trX ;;
  teX3 <- reshape_samples teX ;;
  Ok {| trainX := trX3; trainY := trY; testX := teX3; testY := teY |}.

End Split.

Arguments split {A} dataset.
Arguments wrap_features {A} X.
Arguments reshape_samples {A} X.
Arguments prepare {A} dataset look_back.

(** The window length the notebook uses. *)
Definition look_back : nat := 5.

(** The series of the literal scenario. *)
Definition one_to_ten : list Z := [1; 2; 3; 4; 5; 6; 7; 8; 9; 10]%Z.

(** A series of thirty values, [101 .. 130], and a stand-in network with an
    integer parameter, to run the cells on. *)
Definition sample_series : list Z := map Z.of_nat (seq 101 30).

Definition sample_series_40 : list Z := map Z.of_nat (seq 101 40).

Definition sample_net (p : Z) (window : list (list Z)) : Z :=
  (p + fold_right Z.add 0 (concat window))%Z.

Definition sample_total (xs : list Z) : Z := fold_right Z.add 0%Z xs.

Definition sample_mean_squared (ys ps : list Z) : Z :=
  (sample_total (map (fun '(y, q) => (y - q) * (y - q)) (combine ys ps))
   / Z.of_nat (length ys))%Z.

(** ** The cells that drive PyTorch and scikit-learn

    The numerical library functions are parameters of the development: the
    float type, the network's forward pass on one sample, what autograd
    computes, the Adam update, the scaler's two maps, the metric, the square
    root and the formatting of a float.  What is embedded is the notebook's
    own code: which of them it calls, on what, in which order. *)

Section Notebook.

(** Floats. *)
Variable R : Type.
Variable nan : R.
(** [np.isnan] and [np.isinf]. *)
Variable is_nan : R -> bool.
Variable is_inf : R -> bool.
Variable float_sub : R -> R -> R.
Variable float_square : R -> R.
Variable torch_sum : list R -> R.
Variable math_sqrt : R -> R.
(** [sklearn.metrics.mean_squared_error] on two conforming 1-d arrays. *)
Variable mean_squared : list R -> list R -> R.
(** [f'{float(x)}'] and ['%.2f' % x]. *)
Variable float_repr : R -> string.
Variable float_2f : R -> string.

(** The fit [MinMaxScaler]: one feature, applied entry by entry. *)
Variable scaler : Type.
Variable scaler_fit : array2 R -> scaler.
Variable scaler_transform : scaler -> R -> R.
Variable scaler_inverse : scaler -> R -> R.

(** [Net]: the LSTM and the linear layer map one window, a sequence of
    one-feature steps, to one number; a batch is processed sample by sample. *)
Variable params : Type.
Variable net_sample : params -> list (list R) -> R.

(** What produced a tensor, as far as autograd needs it. *)
Inductive graph : Type :=
| NetOutput (x : list (list (list R)))
| SquaredErrorSum (prediction : graph) (target : list R).

Variable gradient : Type.
Variable autograd : params -> graph -> gradient.
Variable gradient_add : gradient -> gradient -> gradient.
Variable gradient_cleared : gradient.

Variable optimizer : Type.
Variable adam_init : params -> optimizer.
Variable adam_step : optimizer -> params -> gradient -> optimizer * params.

(** A tensor: its entries and its [grad_fn]. *)
Record tensor (T : Type) : Type := {
  data : T;
  grad_fn : option graph
}.

(** The library calls that are logged. *)
Inductive call : Type :=
| CallNet (grad_mode : bool) (x : list (list (list R)))
| CallLoss
| CallSetDescription
| CallBackward
| CallStep
| CallZeroGrad.

Record session : Type := {
  net_params : params;
  net_grads : gradient;
  opt_state : optimizer;
  grad_enabled : bool;
  bar_description : string;
  stdout : list string;
  calls : list call
}.

Definition log (c : call) (s : session) : session :=
  {| net_params := net_params s; net_grads := net_grads s;
     opt_state := opt_state s; grad_enabled := grad_enabled s;
     bar_description := bar_description s; stdout := stdout s;
     calls := calls s ++ [c] |}.

(** A cell: it runs on a session and returns or raises; the session it
    leaves is the one reached when it returned or raised. *)
Definition cell (X : Type) : Type := session -> result X * session.

Definition ret {X : Type} (x : X) : cell X := fun s => (Ok x, s).

Definition raise {X : Type} (e : exn) : cell X := fun s => (Raise e, s).

Definition bind {X Y : Type} (c : cell X) (k : X -> cell Y) : cell Y :=
  fun s =>
    match c s with
    | (Ok x, s') => k x s'
    | (Raise e, s') => (Raise e, s')
    end.

Definition lift {X : Type} (r : result X) : cell X := fun s => (r, s).

Local Notation "x <~ c ; k" := (bind c (fun x => k))
  (at level 61, c at next level, right associativity).
Local Notation "' p <~ c ; k" := (bind c (fun x => match x with p => k end))
  (at level 61, p pattern, c at next level, right associativity).
Local Notation "c ;; k" := (bind c (fun _ => k))
  (at level 61, right associativity).

(** [for x in xs: body x]. *)
Fixpoint for_in {X : Type} (xs : list X) (body : X -> cell unit) : cell unit :=
  match xs with
  | [] => ret tt
  | x :: xs' => body x ;; for_in xs' body
  end.

(** [net(x)]: the forward pass over the whole batch [x]; the output has
    the shape [(len x, 1)] and a [grad_fn] when autograd is recording. *)
Definition net (x : list (list (list R))) : cell (tensor (array2 R)) :=
  fun s =>
    (Ok {| data := column (map (net_sample (net_params s)) x);
           grad_fn := if grad_enabled s then Some (NetOutput x) else None |},
     log (CallNet (grad_enabled s) x) s).

(** [t.flatten()]. *)
Definition flatten (t : tensor (array2 R)) : tensor (list R) :=
  {| data := concat (data t); grad_fn := grad_fn t |}.

(** [u - v] on 1-d arrays, with broadcasting of a length-1 side. *)
Definition broadcast_sub (u v : list R) : result (list R) :=
  if length u =? length v then Ok (map (fun '(a, b) => float_sub a b) (combine u v))
  else match u, v with
       | [a], _ => Ok (map (fun b => float_sub a b) v)
       | _, [b] => Ok (map (fun a => float_sub a b) u)
       | _, _ => Raise RuntimeError
       end.

(** [torch.sum((prediction.flatten() - target.flatten())**2)]; [target]
    was built by [torch.tensor] and has no [grad_fn]. *)
Definition squared_error_sum (prediction : tensor (array2 R)) (target : list R)
  : cell (tensor R) :=
  d <~ lift (broadcast_sub (data (flatten prediction)) target) ;
  fun s =>
    (Ok {| data := torch_sum (map float_square d);
           grad_fn := match grad_fn prediction with
                      | Some g => Some (SquaredErrorSum g target)
                      | None => None
                      end |},
     log CallLoss s).

(** [progress_bar.set_description(text)]. *)
Definition set_description (text : string) : cell unit :=
  fun s =>
    (Ok tt,
     log CallSetDescription
       {| net_params := net_params s; net_grads := net_grads s;
          opt_state := opt_state s; grad_enabled := grad_enabled s;
          bar_description := text; stdout := stdout s; calls := calls s |}).

(** [loss.backward()]: adds the gradient of [loss] to the [.grad] buffers;
    a tensor without [grad_fn] cannot be differentiated. *)
Definition backward (loss : tensor R) : cell unit :=
  fun s =>
    match grad_fn loss with
    | None => (Raise RuntimeError, s)
    | Some g =>
        (Ok tt,
         log CallBackward
           {| net_params := net_params s;
              net_grads := gradient_add (net_grads s) (autograd (net_params s) g);
              opt_state := opt_state s; grad_enabled := grad_enabled s;
              bar_description := bar_description s; stdout := stdout s;
              calls := calls s |})
    end.

(** [opt.step()]. *)
Definition opt_step : cell unit :=
  fun s =>
    let '(o, p) := adam_step (opt_state s) (net_params s) (net_grads s) in
    (Ok tt,
     log CallStep
       {| net_params := p; net_grads := net_grads s; opt_state := o;
          grad_enabled := grad_enabled s;
          bar_description := bar_description s; stdout := stdout s;
          calls := calls s |}).

(** [opt.zero_grad()]. *)
Definition opt_zero_grad : cell unit :=
  fun s =>
    (Ok tt,
     log CallZeroGrad
       {| net_params := net_params s; net_grads := gradient_cleared;
          opt_state := opt_state s; grad_enabled := grad_enabled s;
          bar_description := bar_description s; stdout := stdout s;
          calls := calls s |}).

(** [opt = torch.optim.Adam(net.parameters(), lr=5e-3)]. *)
Definition make_optimizer : cell unit :=
  fun s =>
    (Ok tt,
     {| net_params := net_params s; net_grads := net_grads s;
        opt_state := adam_init (net_params s); grad_enabled := grad_enabled s;
        bar_description := bar_description s; stdout := stdout s;
        calls := calls s |}).

Definition set_grad_enabled (b : bool) (s : session) : session :=
  {| net_params := net_params s; net_grads := net_grads s;
     opt_state := opt_state s; grad_enabled := b;
     bar_description := bar_description s; stdout := stdout s;
     calls := calls s |}.

(** [with torch.no_grad(): body]: recording is switched off for the body
    and the previous mode is restored on the way out, also when it raises. *)
Definition no_grad {X : Type} (body : cell X) : cell X :=
  fun s =>
    let '(r, s') := body (set_grad_enabled false s) in
    (r, set_grad_enabled (grad_enabled s) s').

(** [t.numpy()]: refused for a tensor that requires grad. *)
Definition numpy {T : Type} (t : tensor T) : cell T :=
  match grad_fn t with
  | Some _ => raise RuntimeError
  | None => ret (data t)
  end.

(** [print(line)]. *)
Definition print (line : string) : cell unit :=
  fun s =>
    (Ok tt,
     {| net_params := net_params s; net_grads := net_grads s;
        opt_state := opt_state s; grad_enabled := grad_enabled s;
        bar_description := bar_description s;
        stdout := stdout s ++ [line]; calls := calls s |}).

(** *** The training cell

<<
opt = torch.optim.Adam(net.parameters(), lr=5e-3)
progress_bar = tqdm(range(5000))
for epoch in progress_bar:
    prediction = net(trainX)
    loss = torch.sum((prediction.flatten() - trainY.flatten())**2)
    progress_bar.set_description(f'Loss = {float(loss)}')
    loss.backward()
    opt.step()
    opt.zero_grad()
>> *)

Definition iterations : Z := 5000.

Definition train_iteration (w : windows R) (epoch : nat) : cell unit :=
  prediction <~ net (trainX w) ;
  loss <~ squared_error_sum prediction (trainY w) ;
  set_description ("Loss = " ++ float_repr (data loss)) ;;
  backward loss ;;
  opt_step ;;
  opt_zero_grad.

Definition train_loop (n : Z) (w : windows R) : cell unit :=
  for_in (range n) (train_iteration w).

Definition training (w : windows R) : cell unit :=
  make_optimizer ;;
  train_loop iterations w.

(** *** The evaluation cell *)

(** scikit-learn validates what it is given. The scaler refuses an
    infinity and lets NaN pass; the metric refuses both. *)
Definition no_infinity (xs : list R) : bool :=
  forallb (fun x => negb (is_inf x)) xs.

Definition all_finite (xs : list R) : bool :=
  forallb (fun x => negb (is_nan x) && negb (is_inf x)) xs.

(** The check of the scaler on a two-dimensional array: at least one row,
    at least one column, no infinity. *)
Definition scaler_accepts (arr : array2 R) : bool :=
  match arr with
  | [] => false
  | row :: _ => (0 <? length row) && forallb no_infinity arr
  end.

(** [scaler.inverse_transform(arr)] on a two-dimensional array. *)
Definition inverse_transform (sc : scaler) (arr : array2 R)
  : result (array2 R) :=
  if scaler_accepts arr then Ok (map (map (scaler_inverse sc)) arr)
  else Raise ValueError.

(** [scaler.fit_transform(arr)]. *)
Definition fit_transform (arr : array2 R) : result (scaler * array2 R) :=
  if scaler_accepts arr
  then let sc := scaler_fit arr in
       Ok (sc, map (map (scaler_transform sc)) arr)
  else Raise ValueError.

(** [arr[r]]. *)
Definition get_row (arr : array2 R) (r : nat) : result (list R) :=
  match nth_error arr r with
  | None => Raise IndexError
  | Some row => Ok row
  end.

(** [mean_squared_error(y_true, y_pred)]: scikit-learn refuses inputs of
    different lengths, empty inputs, and inputs with a NaN or an infinity. *)
Definition mean_squared_error (y_true y_pred : list R) : result R :=
  if (length y_true =? length y_pred) && (0 <? length y_true)
     && all_finite y_true && all_finite y_pred
  then Ok (mean_squared y_true y_pred)
  else Raise ValueError.

(** [np.empty_like(arr)] followed by [plot[:, :] = np.nan]. *)
Definition nan_like (arr : array2 R) : array2 R :=
  map (map (fun _ => nan)) arr.

(** One row of [dst[lo:hi, :] = src]: equal widths, or a width-1 source
    that is repeated. *)
Definition assign_row (dst_row src_row : list R) : result (list R) :=
  if length src_row =? length dst_row then Ok src_row
  else match src_row with
       | [x] => Ok (repeat x (length dst_row))
       | _ => Raise ValueError
       end.

(** [dst[lo:hi, :] = src]: the rows selected by the slice are overwritten;
    [src] has as many rows as the slice selects, or one row that is
    repeated; anything else cannot be broadcast. *)
Definition assign_rows (dst : array2 R) (lo hi : nat) (src : array2 R)
  : result (array2 R) :=
  let target := slice lo hi dst in
  rows <- (if length src =? length target then Ok src
           else match src with
                | [row] => Ok (repeat row (length target))
                | _ => Raise ValueError
                end) ;;
  new_rows <- Res.traverse (fun '(d, r) => assign_row d r) (combine target rows) ;;
  Ok (firstn lo dst ++ new_rows ++ skipn (lo + length target) dst).

Record chart : Type := {
  baseline : array2 R;
  trainPredictPlot : array2 R;
  testPredictPlot : array2 R
}.

Record evaluation : Type := {
  trainPredict : array2 R;
  testPredict : array2 R;
  trainY_inv : array2 R;
  testY_inv : array2 R;
  trainScore : R;
  testScore : R;
  shown : chart
}.

(**
<<
with torch.no_grad():
    trainPredict = net(trainX).numpy()
    testPredict = net(testX).numpy()
>> *)
Definition predict (w : windows R) : cell (array2 R * array2 R) :=
  no_grad (
    t1 <~ net (trainX w) ;
    trainPredict <~ numpy t1 ;
    t2 <~ net (testX w) ;
    testPredict <~ numpy t2 ;
    ret (trainPredict, testPredict)).

(**
<<
trainPredict = scaler.inverse_transform(trainPredict)
trainY_inv = scaler.inverse_transform([trainY.numpy()])
testPredict = scaler.inverse_transform(testPredict)
testY_inv = scaler.inverse_transform([testY.numpy()])

trainScore = math.sqrt(mean_squared_error(trainY_inv[0], trainPredict[:,0]))
print('Train Score: %.2f RMSE' % (trainScore))
testScore = math.sqrt(mean_squared_error(testY_inv[0], testPredict[:,0]))
print('Test Score: %.2f RMSE' % (testScore))

trainPredictPlot = np.empty_like(dataset)
trainPredictPlot[:, :] = np.nan
trainPredictPlot[look_back:len(trainPredict)+look_back, :] = trainPredict

testPredictPlot = np.empty_like(dataset)
testPredictPlot[:, :] = np.nan
testPredictPlot[len(trainPredict)+(look_back*2)+1:len(dataset)-1, :] = testPredict

plt.plot(scaler.inverse_transform(dataset))
plt.plot(trainPredictPlot)
plt.plot(testPredictPlot)
plt.show()
>> *)
Definition score (y_inv prediction : array2 R) : result R :=
  y_true <- get_row y_inv 0 ;;
  y_pred <- get_rows_col prediction 0 (length prediction) 0 ;;
  mse <- mean_squared_error y_true y_pred ;;
  Ok (math_sqrt mse).

Definition shift_train (dataset : array2 R) (look_back : nat)
    (trainPredict : array2 R) : result (array2 R) :=
  assign_rows (nan_like dataset)
    look_back (length trainPredict + look_back) trainPredict.

Definition shift_test (dataset : array2 R) (look_back : nat)
    (trainPredict testPredict : array2 R) : result (array2 R) :=
  assign_rows (nan_like dataset)
    (length trainPredict + look_back * 2 + 1) (length dataset - 1) testPredict.

Definition evaluate (sc : scaler) (dataset : array2 R) (look_back : nat)
    (w : windows R) : cell evaluation :=
  '(trainPredict, testPredict) <~ predict w ;
  trainPredict <~ lift (inverse_transform sc trainPredict) ;
  trainY_inv <~ lift (inverse_transform sc [trainY w]) ;
  testPredict <~ lift (inverse_transform sc testPredict) ;
  testY_inv <~ lift (inverse_transform sc [testY w]) ;
  trainScore <~ lift (score trainY_inv trainPredict) ;
  print ("Train Score: " ++ float_2f trainScore ++ " RMSE") ;;
  testScore <~ lift (score testY_inv testPredict) ;
  print ("Test Score: " ++ float_2f testScore ++ " RMSE") ;;
  trainPredictPlot <~ lift (shift_train dataset look_back trainPredict) ;
  testPredictPlot <~ lift (shift_test dataset look_back trainPredict testPredict) ;
  baseline <~ lift (inverse_transform sc dataset) ;
  ret {| trainPredict := trainPredict; testPredict := testPredict;
         trainY_inv := trainY_inv; testY_inv := testY_inv;
         trainScore := trainScore; testScore := testScore;
         shown := {| baseline := baseline;
                     trainPredictPlot := trainPredictPlot;
                     testPredictPlot := testPredictPlot |} |}.

(** *** The cells that look at the data

<<
trainX.shape, trainY.shape
trainX[15, 0, :]
trainY[15]
>> *)

Record displayed : Type := {
  shape_trainX : nat * nat * nat;
  shape_trainY : nat;
  trainX_15_0 : list R;
  trainY_15 : R
}.

(** [X[i, j, :]] on a three-dimensional array. *)
Definition get_step (X : list (list (list R))) (i j : nat) : result (list R) :=
  match nth_error X i with
  | None => Raise IndexError
  | Some sample => item sample j
  end.

Definition look_at_data (w : windows R) : result displayed :=
  let shapeX := (length (trainX w), length (hd [] (trainX w)), 1) in
  let shapeY := length (trainY w) in
  x <- get_step (trainX w) 15 0 ;;
  y <- item (trainY w) 15 ;;
  Ok {| shape_trainX := shapeX; shape_trainY := shapeY;
        trainX_15_0 := x; trainY_15 := y |}.

(** *** The notebook, cell after cell *)

Definition notebook (raw : array2 R) : cell (displayed * evaluation) :=
  '(sc, dataset) <~ lift (fit_transform raw) ;
  w <~ lift (prepare dataset look_back) ;
  seen <~ lift (look_at_data w) ;
  training w ;;
  ev <~ evaluate sc dataset look_back w ;
  ret (seen, ev).

(** *** What the cells are to do, in the words of their description *)

(** The library calls of one training iteration, in order: the forward
    pass on the whole training set with autograd recording, the loss, the
    progress-bar text, the backward pass, one optimizer step, the clearing
    of the gradients. *)
Definition iteration_calls (w : windows R) : list call :=
  [CallNet true (trainX w); CallLoss; CallSetDescription; CallBackward;
   CallStep; CallZeroGrad].

(** The sum of squared errors of the parameters [p] over the whole
    training set. *)
Definition full_batch_loss (p : params) (w : windows R) : R :=
  torch_sum
    (map float_square
       (map (fun '(a, b) => float_sub a b)
          (combine (map (net_sample p) (trainX w)) (trainY w)))).

(** One full-batch optimization step on a session. *)
Definition one_training_step (w : windows R) (s : session) : session :=
  let p := net_params s in
  let g := gradient_add (net_grads s)
             (autograd p (SquaredErrorSum (NetOutput (trainX w)) (trainY w))) in
  {| net_params := snd (adam_step (opt_state s) p g);
     net_grads := gradient_cleared;
     opt_state := fst (adam_step (opt_state s) p g);
     grad_enabled := grad_enabled s;
     bar_description := "Loss = " ++ float_repr (full_batch_loss p w);
     stdout := stdout s;
     calls := calls s ++ iteration_calls w |}.

(** The root-mean-squared error, after both sides are taken back to the
    original scale, of the parameters [p] on the windows [X] with the
    labels [Y]. *)
Definition rmse (sc : scaler) (p : params) (X : list (list (list R)))
    (Y : list R) : R :=
  math_sqrt
    (mean_squared (map (scaler_inverse sc) Y)
       (map (scaler_inverse sc) (map (net_sample p) X))).

(** What the evaluation cell hands to scikit-learn is acceptable: no
    infinity among the series, the labels and the predictions of the
    parameters [p], which go through the scaler, and neither NaN nor
    infinity among the labels and predictions taken back to the original
    scale, which go into the metric. *)
Definition evaluation_accepts (sc : scaler) (p : params) (xs : list R)
    (w : windows R) : bool :=
  no_infinity xs
  && no_infinity (map (net_sample p) (trainX w))
  && no_infinity (map (net_sample p) (testX w))
  && all_finite (map (scaler_inverse sc) (trainY w))
  && all_finite (map (scaler_inverse sc) (map (net_sample p) (trainX w)))
  && all_finite (map (scaler_inverse sc) (testY w))
  && all_finite (map (scaler_inverse sc) (map (net_sample p) (testX w))).

(** What the evaluation cell is to return on the series [xs] for the
    parameters [p], and the session it is to leave. *)
Definition evaluation_of (sc : scaler) (p : params) (xs : list R) (L : nat)
    (w : windows R) : evaluation :=
  let P1 := map (scaler_inverse sc) (map (net_sample p) (trainX w)) in
  let P2 := map (scaler_inverse sc) (map (net_sample p) (testX w)) in
  let nans := map (fun _ : R => nan) xs in
  {| trainPredict := column P1;
     testPredict := column P2;
     trainY_inv := [map (scaler_inverse sc) (trainY w)];
     testY_inv := [map (scaler_inverse sc) (testY w)];
     trainScore := rmse sc p (trainX w) (trainY w);
     testScore := rmse sc p (testX w) (testY w);
     shown :=
       {| baseline := column (map (scaler_inverse sc) xs);
          trainPredictPlot :=
            column (firstn L nans ++ P1 ++ skipn (L + length P1) nans);
          testPredictPlot :=
            column (firstn (length P1 + L * 2 + 1) nans ++ P2
                    ++ skipn (length P1 + L * 2 + 1 + length P2) nans) |} |}.

Definition after_evaluation (sc : scaler) (w : windows R) (s : session)
  : session :=
  {| net_params := net_params s; net_grads := net_grads s;
     opt_state := opt_state s; grad_enabled := grad_enabled s;
     bar_description := bar_description s;
     stdout := stdout s
               ++ [("Train Score: "
                    ++ float_2f (rmse sc (net_params s) (trainX w) (trainY w))
                    ++ " RMSE")%string;
                   ("Test Score: "
                    ++ float_2f (rmse sc (net_params s) (testX w) (testY w))
                    ++ " RMSE")%string];
     calls := calls s ++ [CallNet false (trainX w); CallNet false (testX w)] |}.

(** A cell leaves the model alone: parameters, gradient buffers and
    optimizer state are, when it returns or raises, what they were. *)
Definition keeps_model {X : Type} (c : cell X) : Prop :=
  forall s,
    net_params (snd (c s)) = net_params s
    /\ net_grads (snd (c s)) = net_grads s
    /\ opt_state (snd (c s)) = opt_state s.

(** * Properties *)

Unset Implicit Arguments.

(** ** Slices and the result monad *)

Section SliceFacts.

Variable A : Type.
Implicit Types xs : list A.

Lemma slice_length lo hi xs :
  length (slice lo hi xs) = Nat.min (hi - lo) (length xs - lo).
Proof.
  unfold slice. rewrite length_firstn, length_skipn. reflexivity.
Qed.

Lemma slice_nth_error lo hi xs k :
  k < hi - lo -> nth_error (slice lo hi xs) k = nth_error xs (lo + k).
Proof.
  intros Hk. unfold slice.
  rewrite nth_error_firstn.
  destruct (Nat.ltb_spec k (hi - lo)) as [_ | Hge]; [| lia].
  apply nth_error_skipn.
Qed.

Lemma slice_nth_error_out lo hi xs k :
  hi - lo <= k -> nth_error (slice lo hi xs) k = None.
Proof.
  intros Hk. apply nth_error_None. rewrite slice_length. lia.
Qed.

Lemma slice_snoc lo hi xs x :
  lo <= hi -> nth_error xs hi = Some x ->
  slice lo (S hi) xs = slice lo hi xs ++ [x].
Proof.
  intros Hle Hx. unfold slice.
  replace (S hi - lo) with (S (hi - lo)) by lia.
  assert (Hy : nth_error (skipn lo xs) (hi - lo) = Some x).
  { rewrite nth_error_skipn. replace (lo + (hi - lo)) with hi by lia. exact Hx. }
  revert Hy. generalize (skipn lo xs) as ys. generalize (hi - lo) as n.
  induction n as [| n IH]; intros [| y ys] Hy; simpl in *; try discriminate.
  - injection Hy as ->. reflexivity.
  - f_equal. apply IH. exact Hy.
Qed.

Lemma slice_whole_prefix n xs : slice 0 n xs = firstn n xs.
Proof. unfold slice. rewrite Nat.sub_0_r. reflexivity. Qed.

Lemma slice_to_end n xs : slice n (length xs) xs = skipn n xs.
Proof.
  unfold slice. apply firstn_all2. rewrite length_skipn. lia.
Qed.

Lemma slice_map (B : Type) (f : A -> B) lo hi xs :
  slice lo hi (map f xs) = map f (slice lo hi xs).
Proof. unfold slice. rewrite skipn_map, firstn_map. reflexivity. Qed.

(** A slice of a prefix that stays inside the prefix is a slice of the
    whole, and a slice of a suffix is a slice of the whole, moved. *)
Lemma slice_firstn lo hi n xs :
  hi <= n -> slice lo hi (firstn n xs) = slice lo hi xs.
Proof.
  intros Hhi. unfold slice.
  destruct (Nat.le_gt_cases hi lo) as [Hle | Hlt].
  - replace (hi - lo) with 0 by lia. reflexivity.
  - rewrite skipn_firstn_comm, firstn_firstn.
    f_equal. lia.
Qed.

Lemma slice_skipn lo hi n xs :
  slice lo hi (skipn n xs) = slice (n + lo) (n + hi) xs.
Proof.
  unfold slice. rewrite skipn_skipn.
  replace (n + hi - (n + lo)) with (hi - lo) by lia.
  replace (lo + n) with (n + lo) by lia. reflexivity.
Qed.

Lemma for_each_app (St : Type) (body : A -> St -> result St) xs ys s :
  Res.for_each (xs ++ ys) body s
  = Res.bind (Res.for_each xs body s) (Res.for_each ys body).
Proof.
  revert s. induction xs as [| x xs IH]; intros s; simpl.
  - reflexivity.
  - destruct (body x s) as [s' | e]; simpl; [apply IH | reflexivity].
Qed.

Lemma traverse_column xs :
  Res.traverse (fun row : list A => item row 0) (column xs) = Ok xs.
Proof.
  induction xs as [| x xs IH]; [reflexivity |].
  change (column (x :: xs)) with ([x] :: column xs).
  cbn [Res.traverse]. rewrite IH. reflexivity.
Qed.

Lemma get_rows_col_column lo hi xs :
  get_rows_col (column xs) lo hi 0 = Ok (slice lo hi xs).
Proof.
  unfold get_rows_col, column. rewrite slice_map.
  apply traverse_column.
Qed.

Lemma get2_column xs k x :
  nth_error xs k = Some x -> get2 (column xs) k 0 = Ok x.
Proof.
  intros Hx. unfold get2, column.
  rewrite nth_error_map, Hx. reflexivity.
Qed.

Lemma column_length xs : length (column xs) = length xs.
Proof. apply length_map. Qed.

Lemma slice_column lo hi xs :
  slice lo hi (column xs) = column (slice lo hi xs).
Proof. apply slice_map. Qed.

Lemma firstn_column n xs : firstn n (column xs) = column (firstn n xs).
Proof. apply firstn_map. Qed.

Lemma skipn_column n xs : skipn n (column xs) = column (skipn n xs).
Proof. apply skipn_map. Qed.

End SliceFacts.

(** ** The windowing transform *)

Section Windowing.

Variable A : Type.
Implicit Types xs : list A.

Lemma pair_count_nat N L : pair_count N L = N - L - 1.
Proof. unfold pair_count. lia. Qed.

Lemma create_dataset_steps xs L n :
  n <= length xs - L - 1 ->
  Res.for_each (seq 0 n) (create_dataset_body (column xs) L) ([], [])
  = Ok (windows_of xs L n, labels_of xs L n).
Proof.
  induction n as [| n IH]; intros Hn.
  - unfold windows_of, labels_of, slice. simpl.
    replace (L + 0 - L) with 0 by lia. reflexivity.
  - rewrite seq_S, for_each_app, IH by lia. simpl.
    destruct (nth_error xs (n + L)) as [y |] eqn:Hy.
    2:{ apply nth_error_None in Hy. lia. }
    rewrite get_rows_col_column. simpl.
    rewrite (get2_column _ _ _ _ Hy). simpl.
    unfold windows_of, labels_of. rewrite seq_S, map_app. simpl.
    do 2 f_equal.
    replace (L + S n) with (S (L + n)) by lia.
    symmetry. apply slice_snoc; [lia |].
    rewrite Nat.add_comm. exact Hy.
Qed.

Lemma create_dataset_column xs L :
  create_dataset (column xs) L
  = Ok (windows_of xs L (pair_count (length xs) L),
        labels_of xs L (pair_count (length xs) L)).
Proof.
  unfold create_dataset, range, len.
  rewrite column_length.
  replace (Z.to_nat (Z.of_nat (length xs) - Z.of_nat L - 1))
    with (pair_count (length xs) L) by (unfold pair_count; lia).
  apply create_dataset_steps. rewrite pair_count_nat. lia.
Qed.

Lemma windows_of_length xs L c : length (windows_of xs L c) = c.
Proof. unfold windows_of. rewrite length_map, length_seq. reflexivity. Qed.

Lemma labels_of_length xs L c :
  c <= length xs - L -> length (labels_of xs L c) = c.
Proof. intros H. unfold labels_of. rewrite slice_length. lia. Qed.

Lemma windows_of_nth_error xs L c i :
  i < c -> nth_error (windows_of xs L c) i = Some (slice i (i + L) xs).
Proof.
  intros Hi. unfold windows_of.
  rewrite nth_error_map, nth_error_seq.
  destruct (Nat.ltb_spec i c); [reflexivity | lia].
Qed.

Lemma labels_of_nth_error xs L c i :
  i < c -> nth_error (labels_of xs L c) i = nth_error xs (L + i).
Proof.
  intros Hi. unfold labels_of. apply slice_nth_error. lia.
Qed.

Lemma labels_of_pointwise xs L c :
  c <= length xs - L ->
  map Some (labels_of xs L c) = map (fun i => nth_error xs (i + L)) (seq 0 c).
Proof.
  intros Hc. apply nth_error_ext. intros k.
  rewrite !nth_error_map, nth_error_seq.
  destruct (Nat.ltb_spec k c) as [Hk | Hk]; simpl.
  - rewrite labels_of_nth_error by exact Hk.
    rewrite (Nat.add_comm k L).
    destruct (nth_error xs (L + k)) eqn:E; [reflexivity |].
    apply nth_error_None in E. lia.
  - replace (nth_error (labels_of xs L c) k) with (@None A); [reflexivity |].
    symmetry. apply nth_error_None. rewrite labels_of_length by exact Hc. exact Hk.
Qed.

Lemma window_length xs L i :
  i + L <= length xs -> length (slice i (i + L) xs) = L.
Proof. intros H. rewrite slice_length. lia. Qed.

(** C1. For a series of length [N] and a window length [L], [create_dataset]
    returns exactly [max(0, N - L - 1)] pairs; the windows are
    [S[i:i+L]] and the labels [S[i+L]] for [i = 0 .. N-L-2], in increasing
    order of [i]; and nothing is returned when [N <= L + 1]. *)
Theorem create_dataset_pairs (xs : list A) (L : nat) :
  let count := Z.to_nat (Z.max 0 (len xs - Z.of_nat L - 1)) in
  exists dataX dataY,
    create_dataset (column xs) L = Ok (dataX, dataY)
    /\ length dataX = count
    /\ length dataY = count
    /\ dataX = map (fun i => slice i (i + L) xs) (seq 0 count)
    /\ map Some dataY = map (fun i => nth_error xs (i + L)) (seq 0 count)
    /\ (if length xs <=? L + 1 then (dataX, dataY) = ([], []) else 0 < count).
Proof.
  intros count.
  assert (Hc : count = pair_count (length xs) L) by reflexivity.
  assert (Hn : count = length xs - L - 1) by (rewrite Hc; apply pair_count_nat).
  exists (windows_of xs L count), (labels_of xs L count).
  split; [rewrite Hc; apply create_dataset_column |].
  split; [apply windows_of_length |].
  split; [apply labels_of_length; lia |].
  split; [reflexivity |].
  split; [apply labels_of_pointwise; lia |].
  destruct (Nat.leb_spec (length xs) (L + 1)) as [Hle | Hgt].
  - replace count with 0 by lia.
    unfold windows_of, labels_of, slice.
    replace (L + 0 - L) with 0 by lia. reflexivity.
  - lia.
Qed.

(** C8. Consecutive windows overlap in [L - 1] entries: window [i+1] is
    window [i] moved one position to the left, and its last entry, the one
    at index [L - 1], is the label of pair [i]. *)
Theorem consecutive_windows_overlap (xs : list A) (L i : nat) :
  i + 1 < pair_count (length xs) L ->
  exists dataX dataY w w' y,
    create_dataset (column xs) L = Ok (dataX, dataY)
    /\ nth_error dataX i = Some w
    /\ nth_error dataX (i + 1) = Some w'
    /\ nth_error dataY i = Some y
    /\ length w = L /\ length w' = L
    /\ (forall j, j + 1 < L ->
          nth_error w' j = nth_error w (j + 1) /\ nth_error w' j <> None)
    /\ (forall j, j + 1 = L -> nth_error w' j = Some y).
Proof.
  intros Hi. rewrite pair_count_nat in Hi.
  destruct (nth_error xs (L + i)) as [y |] eqn:Hy.
  2:{ apply nth_error_None in Hy. lia. }
  exists (windows_of xs L (pair_count (length xs) L)),
         (labels_of xs L (pair_count (length xs) L)),
         (slice i (i + L) xs), (slice (i + 1) (i + 1 + L) xs), y.
  split; [apply create_dataset_column |].
  split; [apply windows_of_nth_error; rewrite pair_count_nat; lia |].
  split; [apply windows_of_nth_error; rewrite pair_count_nat; lia |].
  split; [rewrite labels_of_nth_error by (rewrite pair_count_nat; lia); exact Hy |].
  split; [apply window_length; lia |].
  split; [apply window_length; lia |].
  split.
  - intros j Hj.
    rewrite !slice_nth_error by lia.
    replace (i + (j + 1)) with (i + 1 + j) by lia.
    split; [reflexivity |].
    intros Hnone. apply nth_error_None in Hnone. lia.
  - intros j Hj.
    rewrite slice_nth_error by lia.
    replace (i + 1 + j) with (L + i) by lia. exact Hy.
Qed.

End Windowing.

(** ** The size of the train partition *)

Lemma holds_from_sound count start f :
  holds_from count start f = true ->
  forall z, (start <= z < start + Z.of_nat count)%Z -> f z = true.
Proof.
  revert start. induction count as [| count IH]; intros start H z Hz.
  - lia.
  - simpl in H. apply andb_prop in H. destruct H as [H0 H1].
    destruct (Z.eq_dec z start) as [-> | Hne]; [exact H0 |].
    apply (IH (start + 1)%Z H1). lia.
Qed.

Lemma times_0_67_checked :
  holds_from (N.to_nat 65536) 0 times_0_67_exact = true.
Proof. vm_compute. reflexivity. Qed.

(** On every length below [2^16] the binary64 computation returns, and
    returns [floor(0.67 * N)]. *)
Lemma train_size_floor n :
  n < N.to_nat 65536 -> train_size n = Ok (67 * n / 100).
Proof.
  intros Hn.
  assert (H : times_0_67_exact (Z.of_nat n) = true).
  { eapply holds_from_sound; [apply times_0_67_checked | lia]. }
  unfold times_0_67_exact in H. unfold train_size.
  destruct (int_times_0_67 (Z.of_nat n)) as [k | e]; [| discriminate].
  apply Z.eqb_eq in H.
  change (Ok (Z.to_nat k) = Ok (67 * n / 100)). f_equal.
  subst k. apply Nat2Z.inj.
  rewrite Nat2Z.inj_div, Nat2Z.inj_mul, Z2Nat.id; [reflexivity |].
  apply Z.div_pos; lia.
Qed.

Example train_size_144 : train_size 144 = Ok 96.
Proof. vm_compute. reflexivity. Qed.

(** ** The literal scenario *)

(** C2, as the code has it. On the series [1 .. 10] with window length 3
    the transform returns six pairs, the last one being [([6,7,8], 9)]:
    the range stops at [N - L - 2 = 5]. *)
Theorem create_dataset_one_to_ten :
  create_dataset (column one_to_ten) 3
  = Ok ([[1; 2; 3]; [2; 3; 4]; [3; 4; 5]; [4; 5; 6]; [5; 6; 7]; [6; 7; 8]]%Z,
        [4; 5; 6; 7; 8; 9]%Z).
Proof. reflexivity. Qed.

(** C2, as stated, fails: the seven pairs ending with [([7,8,9], 10)] are
    not what the transform returns. *)
Lemma create_dataset_one_to_ten_not_seven :
  create_dataset (column one_to_ten) 3
  <> Ok ([[1; 2; 3]; [2; 3; 4]; [3; 4; 5]; [4; 5; 6]; [5; 6; 7]; [6; 7; 8];
          [7; 8; 9]]%Z,
         [4; 5; 6; 7; 8; 9; 10]%Z).
Proof. intros H. vm_compute in H. discriminate H. Qed.

(** ** The split *)

Section SplitFacts.

Variable A : Type.

Lemma split_inv (dataset : array2 A) (parts : partitions A) :
  split dataset = Ok parts ->
  train_size (length dataset) = Ok (part_train_size parts)
  /\ part_test_size parts = (len dataset - Z.of_nat (part_train_size parts))%Z
  /\ part_train parts = firstn (part_train_size parts) dataset
  /\ part_test parts = skipn (part_train_size parts) dataset.
Proof.
  unfold split. destruct (train_size (length dataset)) as [ts | e]; simpl.
  - intros H. injection H as <-. simpl.
    rewrite slice_whole_prefix, slice_to_end. repeat split.
  - discriminate.
Qed.

Lemma split_returns (dataset : array2 A) :
  length dataset < N.to_nat 65536 ->
  split dataset
  = Ok {| part_train_size := 67 * length dataset / 100;
          part_test_size := len dataset - Z.of_nat (67 * length dataset / 100);
          part_train := slice 0 (67 * length dataset / 100) dataset;
          part_test := slice (67 * length dataset / 100) (length dataset) dataset |}.
Proof.
  intros Hn. unfold split. rewrite (train_size_floor _ Hn). reflexivity.
Qed.

(** C10. The two slices of the split are a partition of the dataset: the
    train slice followed by the test slice is the dataset, entry by entry
    and in order, with [test_size = N - train_size]; and the train size is
    [floor(0.67 * N)]. *)
Theorem split_is_partition (dataset : array2 A) (parts : partitions A) :
  split dataset = Ok parts ->
  let ts := part_train_size parts in
  part_train parts = slice 0 ts dataset
  /\ part_test parts = slice ts (length dataset) dataset
  /\ part_test_size parts = (len dataset - Z.of_nat ts)%Z
  /\ part_train parts ++ part_test parts = dataset
  /\ length (part_train parts) + length (part_test parts) = length dataset
  /\ (forall i, i < ts -> nth_error (part_train parts) i = nth_error dataset i)
  /\ (forall i, ts <= i ->
        nth_error (part_test parts) (i - ts) = nth_error dataset i
        /\ nth_error (part_train parts) i = None)
  /\ (length dataset < N.to_nat 65536 ->
        ts = 67 * length dataset / 100
        /\ length (part_train parts) = ts
        /\ Z.of_nat (length (part_test parts)) = part_test_size parts).
Proof.
  intros H ts. destruct (split_inv _ _ H) as (Hts & Hsize & Htr & Hte).
  fold ts in Hts, Hsize, Htr, Hte.
  rewrite slice_whole_prefix, slice_to_end.
  split; [exact Htr |]. split; [exact Hte |]. split; [exact Hsize |].
  rewrite Htr, Hte.
  split; [apply firstn_skipn |].
  split; [rewrite <- length_app, firstn_skipn; reflexivity |].
  split; [| split].
  - intros i Hi. rewrite nth_error_firstn.
    destruct (Nat.ltb_spec i ts); [reflexivity | lia].
  - intros i Hi. split.
    + rewrite nth_error_skipn. f_equal. lia.
    + rewrite nth_error_firstn.
      destruct (Nat.ltb_spec i ts); [lia | reflexivity].
  - intros Hn.
    assert (E : ts = 67 * length dataset / 100)
      by (rewrite (train_size_floor _ Hn) in Hts; congruence).
    assert (Hle : ts <= length dataset).
    { rewrite E. apply Nat.Div0.div_le_upper_bound. lia. }
    split; [exact E |].
    split; [rewrite length_firstn; lia |].
    rewrite length_skipn, Hsize. unfold len. lia.
Qed.

(** The windows of the two partitions of a series, as slices of the
    whole series. *)
Lemma partition_windows (xs : list A) (parts : partitions A) (L : nat) :
  split (column xs) = Ok parts ->
  let ts := part_train_size parts in
  create_dataset (part_train parts) L
  = Ok (windows_of (firstn ts xs) L (pair_count (length (firstn ts xs)) L),
        labels_of (firstn ts xs) L (pair_count (length (firstn ts xs)) L))
  /\ create_dataset (part_test parts) L
     = Ok (windows_of (skipn ts xs) L (pair_count (length (skipn ts xs)) L),
           labels_of (skipn ts xs) L (pair_count (length (skipn ts xs)) L)).
Proof.
  intros H ts. destruct (split_inv _ _ H) as (_ & _ & Htr & Hte).
  fold ts in Htr, Hte. rewrite Htr, Hte.
  unfold column. rewrite firstn_map, skipn_map.
  split; apply create_dataset_column.
Qed.

(** C4. Every training window and its label lie in the train partition:
    pair [i] is made of the positions [i .. i+L] of the series, all below
    [train_size]; every test window and its label lie in the test
    partition: pair [j] is made of the positions
    [train_size+j .. train_size+j+L], none below [train_size]. *)
Theorem windows_stay_in_partition (xs : list A) (parts : partitions A) (L : nat) :
  split (column xs) = Ok parts ->
  let ts := part_train_size parts in
  exists trX trY teX teY,
    create_dataset (part_train parts) L = Ok (trX, trY)
    /\ create_dataset (part_test parts) L = Ok (teX, teY)
    /\ length trX = length trY
    /\ length teX = length teY
    /\ (forall i w y,
          nth_error trX i = Some w -> nth_error trY i = Some y ->
          w = slice i (i + L) xs
          /\ nth_error xs (i + L) = Some y
          /\ i + L < ts
          /\ i + L < length (part_train parts))
    /\ (forall j w y,
          nth_error teX j = Some w -> nth_error teY j = Some y ->
          w = slice (ts + j) (ts + j + L) xs
          /\ nth_error xs (ts + j + L) = Some y
          /\ ts <= ts + j
          /\ ts + j + L < length xs
          /\ j + L < length (part_test parts)).
Proof.
  intros H ts. destruct (partition_windows _ _ L H) as [Htr Hte].
  destruct (split_inv _ _ H) as (_ & _ & Ptr & Pte).
  fold ts in Htr, Hte, Ptr, Pte.
  set (ctr := pair_count (length (firstn ts xs)) L) in *.
  set (cte := pair_count (length (skipn ts xs)) L) in *.
  assert (Hctr : ctr = length (firstn ts xs) - L - 1) by apply pair_count_nat.
  assert (Hcte : cte = length (skipn ts xs) - L - 1) by apply pair_count_nat.
  exists (windows_of (firstn ts xs) L ctr), (labels_of (firstn ts xs) L ctr),
         (windows_of (skipn ts xs) L cte), (labels_of (skipn ts xs) L cte).
  split; [exact Htr |]. split; [exact Hte |].
  split; [rewrite windows_of_length, labels_of_length by lia; reflexivity |].
  split; [rewrite windows_of_length, labels_of_length by lia; reflexivity |].
  rewrite Ptr, Pte. unfold column. rewrite firstn_map, skipn_map, !length_map.
  rewrite length_firstn in Hctr. rewrite length_skipn in Hcte.
  rewrite length_firstn, length_skipn.
  split.
  - intros i w y Hw Hy.
    assert (Hi : i < ctr).
    { rewrite <- (windows_of_length _ (firstn ts xs) L ctr).
      apply nth_error_Some. rewrite Hw. discriminate. }
    rewrite windows_of_nth_error in Hw by exact Hi.
    rewrite labels_of_nth_error in Hy by exact Hi.
    injection Hw as <-.
    rewrite nth_error_firstn in Hy.
    destruct (Nat.ltb_spec (L + i) ts) as [Hlt | Hge]; [| discriminate].
    split; [apply slice_firstn; lia |].
    split; [rewrite Nat.add_comm; exact Hy |].
    lia.
  - intros j w y Hw Hy.
    assert (Hj : j < cte).
    { rewrite <- (windows_of_length _ (skipn ts xs) L cte).
      apply nth_error_Some. rewrite Hw. discriminate. }
    rewrite windows_of_nth_error in Hw by exact Hj.
    rewrite labels_of_nth_error in Hy by exact Hj.
    injection Hw as <-.
    rewrite nth_error_skipn in Hy.
    split; [rewrite slice_skipn; f_equal; lia |].
    split; [rewrite <- Hy; f_equal; lia |].
    lia.
Qed.

End SplitFacts.

(** ** The training cell *)

Lemma concat_column (A : Type) (xs : list A) : concat (column xs) = xs.
Proof.
  induction xs as [| x xs IH]; [reflexivity |].
  change (column (x :: xs)) with ([x] :: column xs).
  simpl. rewrite IH. reflexivity.
Qed.

Lemma broadcast_sub_same_length (u v : list R) :
  length u = length v ->
  broadcast_sub u v = Ok (map (fun '(a, b) => float_sub a b) (combine u v)).
Proof.
  intros H. unfold broadcast_sub. rewrite H, Nat.eqb_refl. reflexivity.
Qed.

Lemma train_iteration_step (w : windows R) (epoch : nat) (s : session) :
  length (trainX w) = length (trainY w) ->
  grad_enabled s = true ->
  train_iteration w epoch s = (Ok tt, one_training_step w s).
Proof.
  intros Hlen Hgrad.
  unfold train_iteration, bind, net, squared_error_sum, bind, lift, flatten.
  cbn [data grad_fn]. rewrite concat_column.
  rewrite broadcast_sub_same_length by (rewrite length_map; exact Hlen).
  rewrite Hgrad.
  unfold set_description, backward, opt_step, opt_zero_grad, log.
  cbn -[String.append].
  unfold one_training_step, full_batch_loss, iteration_calls.
  destruct (adam_step (opt_state s) (net_params s)
              (gradient_add (net_grads s)
                 (autograd (net_params s)
                    (SquaredErrorSum (NetOutput (trainX w)) (trainY w)))))
    as [o p] eqn:E.
  cbn -[String.append]. rewrite Hgrad.
  repeat rewrite <- app_assoc. reflexivity.
Qed.

Lemma one_training_step_grad (w : windows R) (s : session) :
  grad_enabled (one_training_step w s) = grad_enabled s.
Proof. reflexivity. Qed.


Lemma concat_repeat_snoc (X : Type) (l : list X) (n : nat) :
  concat (repeat l n) ++ l = concat (repeat l (S n)).
Proof.
  induction n as [| n IH].
  - simpl. rewrite app_nil_r. reflexivity.
  - cbn [repeat concat] in *. rewrite <- app_assoc, IH. reflexivity.
Qed.

Lemma iter_training_calls (w : windows R) (n : nat) (s : session) :
  calls (Nat.iter n (one_training_step w) s)
  = calls s ++ concat (repeat (iteration_calls w) n).
Proof.
  induction n as [| n IH].
  - simpl. rewrite app_nil_r. reflexivity.
  - change (Nat.iter (S n) (one_training_step w) s)
      with (one_training_step w (Nat.iter n (one_training_step w) s)).
    unfold one_training_step at 1. cbn [calls]. rewrite IH.
    rewrite <- app_assoc, concat_repeat_snoc. reflexivity.
Qed.

Lemma iter_training_stdout (w : windows R) (n : nat) (s : session) :
  stdout (Nat.iter n (one_training_step w) s) = stdout s.
Proof.
  induction n as [| n IH]; [reflexivity |]. simpl. exact IH.
Qed.

Lemma for_in_training (w : windows R) (n start : nat) (s : session) :
  length (trainX w) = length (trainY w) ->
  grad_enabled s = true ->
  for_in (seq start n) (train_iteration w) s
  = (Ok tt, Nat.iter n (one_training_step w) s).
Proof.
  intros Hlen. revert start s.
  induction n as [| n IH]; intros start s Hgrad.
  - reflexivity.
  - cbn [seq for_in]. unfold bind at 1.
    rewrite train_iteration_step by assumption.
    rewrite IH by (rewrite one_training_step_grad; exact Hgrad).
    rewrite <- Nat.iter_succ_r. reflexivity.
Qed.



(** ** The preparation cell *)

Section PrepareFacts.

Variable A : Type.

Lemma windows_of_nil (xs : list A) (L c : nat) :
  windows_of xs L c = [] -> c = 0.
Proof.
  intros H. apply (f_equal (@length _)) in H.
  rewrite windows_of_length in H. exact H.
Qed.

Lemma reshape_windows (xs : list A) (L c : nat) :
  reshape_samples (windows_of xs L c)
  = if 0 <? c then Ok (wrap_features (windows_of xs L c)) else Raise IndexError.
Proof.
  destruct c as [| c]; [reflexivity |].
  destruct (windows_of xs L (S c)) eqn:E.
  - apply windows_of_nil in E. discriminate.
  - reflexivity.
Qed.

(** The preparation cell on a series: it returns exactly when each
    partition holds at least one window, that is at least [L + 2] entries. *)
Lemma prepare_column (xs : list A) (L : nat) :
  prepare (column xs) L
  = match train_size (length xs) with
    | Raise e => Raise e
    | Ok ts =>
        if (L + 2 <=? Nat.min ts (length xs)) && (L + 2 <=? length xs - ts)
        then Ok {| trainX := wrap_features
                               (windows_of (firstn ts xs) L (ts - L - 1));
                   trainY := labels_of (firstn ts xs) L (ts - L - 1);
                   testX := wrap_features
                              (windows_of (skipn ts xs) L (length xs - ts - L - 1));
                   testY := labels_of (skipn ts xs) L (length xs - ts - L - 1) |}
        else Raise IndexError
    end.
Proof.
  unfold prepare.
  destruct (split (column xs)) as [parts | e] eqn:Hsplit.
  - destruct (partition_windows _ xs parts L Hsplit) as [Htr Hte].
    destruct (split_inv _ _ _ Hsplit) as (Hts & _ & _ & _).
    rewrite column_length in Hts. rewrite Hts.
    cbn [Res.bind]. rewrite Htr, Hte. cbn [Res.bind].
    rewrite !reshape_windows, !pair_count_nat, length_firstn, length_skipn.
    set (ts := part_train_size parts).
    destruct (Nat.ltb_spec 0 (Nat.min ts (length xs) - L - 1)) as [H1 | H1];
      destruct (Nat.leb_spec (L + 2) (Nat.min ts (length xs))) as [H1' | H1'];
      try lia; cbn [Res.bind andb]; [| reflexivity].
    destruct (Nat.ltb_spec 0 (length xs - ts - L - 1)) as [H2 | H2];
      destruct (Nat.leb_spec (L + 2) (length xs - ts)) as [H2' | H2'];
      try lia; cbn [Res.bind]; [| reflexivity].
    replace (Nat.min ts (length xs)) with ts by lia. reflexivity.
  - unfold split in Hsplit. rewrite column_length in Hsplit.
    destruct (train_size (length xs)) as [ts | e']; cbn [Res.bind] in *.
    + discriminate.
    + congruence.
Qed.

Lemma prepare_inv (xs : list A) (L : nat) (w : windows A) :
  prepare (column xs) L = Ok w ->
  exists ts,
    train_size (length xs) = Ok ts
    /\ L + 2 <= ts
    /\ L + 2 <= length xs - ts
    /\ trainX w = wrap_features (windows_of (firstn ts xs) L (ts - L - 1))
    /\ trainY w = labels_of (firstn ts xs) L (ts - L - 1)
    /\ testX w = wrap_features (windows_of (skipn ts xs) L (length xs - ts - L - 1))
    /\ testY w = labels_of (skipn ts xs) L (length xs - ts - L - 1).
Proof.
  rewrite prepare_column.
  destruct (train_size (length xs)) as [ts | e]; [| discriminate].
  destruct (Nat.leb_spec (L + 2) (Nat.min ts (length xs))) as [H1 | H1];
    [| discriminate].
  destruct (Nat.leb_spec (L + 2) (length xs - ts)) as [H2 | H2];
    [| discriminate].
  cbn [andb]. intros H. injection H as <-.
  exists ts. cbn [trainX trainY testX testY].
  repeat split; try reflexivity; lia.
Qed.

Lemma prepare_lengths (xs : list A) (L : nat) (w : windows A) :
  prepare (column xs) L = Ok w ->
  length (trainX w) = length (trainY w)
  /\ length (testX w) = length (testY w)
  /\ 0 < length (trainY w)
  /\ 0 < length (testY w).
Proof.
  intros H. destruct (prepare_inv _ _ _ H) as (ts & _ & H1 & H2 & -> & -> & -> & ->).
  unfold wrap_features.
  rewrite !length_map, !windows_of_length.
  rewrite !labels_of_length by (rewrite ?length_firstn, ?length_skipn; lia).
  lia.
Qed.

(** On a series of 144 values, the monthly counts of twelve years, the
    cell returns 90 training windows and 42 test windows; the notebook
    displays the shapes [(90, 5, 1)] and [(90,)]. *)
Lemma prepare_144 (xs : list A) :
  length xs = 144 ->
  exists w,
    prepare (column xs) look_back = Ok w
    /\ length (trainX w) = 90 /\ length (trainY w) = 90
    /\ length (testX w) = 42 /\ length (testY w) = 42
    /\ (forall x, In x (trainX w) -> length x = 5).
Proof.
  intros HN. rewrite prepare_column, HN, train_size_144.
  change ((look_back + 2 <=? Nat.min 96 144) && (look_back + 2 <=? 144 - 96))
    with true.
  cbv iota. eexists. split; [reflexivity |].
  cbn [trainX trainY testX testY]. unfold wrap_features.
  rewrite !length_map, !windows_of_length.
  rewrite !labels_of_length
    by (rewrite ?length_firstn, ?length_skipn, HN; unfold look_back; lia).
  repeat split.
  intros x Hx. apply in_map_iff in Hx. destruct Hx as (win & <- & Hwin).
  unfold windows_of in Hwin. apply in_map_iff in Hwin.
  destruct Hwin as (i & <- & Hi). apply in_seq in Hi.
  rewrite length_map, window_length; [reflexivity |].
  rewrite length_firstn, HN. unfold look_back in *. lia.
Qed.

End PrepareFacts.

(** ** The evaluation cell *)

Lemma no_infinity_app (xs ys : list R) :
  no_infinity (xs ++ ys) = no_infinity xs && no_infinity ys.
Proof. apply forallb_app. Qed.

Lemma no_infinity_firstn (xs : list R) (n : nat) :
  no_infinity xs = true -> no_infinity (firstn n xs) = true.
Proof.
  intros H. rewrite <- (firstn_skipn n xs), no_infinity_app in H.
  apply andb_prop in H. apply H.
Qed.

Lemma no_infinity_skipn (xs : list R) (n : nat) :
  no_infinity xs = true -> no_infinity (skipn n xs) = true.
Proof.
  intros H. rewrite <- (firstn_skipn n xs), no_infinity_app in H.
  apply andb_prop in H. apply H.
Qed.

Lemma no_infinity_slice (xs : list R) (lo hi : nat) :
  no_infinity xs = true -> no_infinity (slice lo hi xs) = true.
Proof.
  intros H. unfold slice. apply no_infinity_firstn, no_infinity_skipn, H.
Qed.

Lemma scaler_accepts_column (ps : list R) :
  0 < length ps -> scaler_accepts (column ps) = no_infinity ps.
Proof.
  intros Hpos.
  assert (E : forallb no_infinity (column ps) = no_infinity ps).
  { clear Hpos. induction ps as [| x ps IH]; [reflexivity |].
    change (column (x :: ps)) with ([x] :: column ps).
    cbn [forallb no_infinity]. fold (no_infinity ps).
    rewrite IH, andb_true_r. reflexivity. }
  destruct ps as [| x ps]; [simpl in Hpos; lia |].
  unfold scaler_accepts. change (column (x :: ps)) with ([x] :: column ps).
  change (0 <? length [x]) with true. cbn [andb].
  exact E.
Qed.

Lemma scaler_accepts_row (ys : list R) :
  0 < length ys -> scaler_accepts [ys] = no_infinity ys.
Proof.
  intros Hpos. unfold scaler_accepts. cbn [forallb].
  destruct (Nat.ltb_spec 0 (length ys)) as [_ | Hle]; [| lia].
  rewrite andb_true_r. reflexivity.
Qed.

Lemma inverse_transform_column (sc : scaler) (ps : list R) :
  0 < length ps ->
  inverse_transform sc (column ps)
  = if no_infinity ps then Ok (column (map (scaler_inverse sc) ps))
    else Raise ValueError.
Proof.
  intros Hpos. unfold inverse_transform.
  rewrite scaler_accepts_column by exact Hpos.
  unfold column. rewrite !map_map. reflexivity.
Qed.

Lemma inverse_transform_row (sc : scaler) (ys : list R) :
  0 < length ys ->
  inverse_transform sc [ys]
  = if no_infinity ys then Ok [map (scaler_inverse sc) ys]
    else Raise ValueError.
Proof.
  intros Hpos. unfold inverse_transform.
  rewrite scaler_accepts_row by exact Hpos. reflexivity.
Qed.

Lemma nan_like_column (xs : list R) :
  nan_like (column xs) = column (map (fun _ => nan) xs).
Proof.
  unfold nan_like, column. rewrite !map_map. reflexivity.
Qed.

Lemma column_app (A : Type) (xs ys : list A) :
  column (xs ++ ys) = column xs ++ column ys.
Proof. apply map_app. Qed.

Lemma column_nth_error (A : Type) (xs : list A) (k : nat) :
  nth_error (column xs) k = option_map (fun x => [x]) (nth_error xs k).
Proof. apply nth_error_map. Qed.

(** Inference: both forward passes run with recording switched off, so
    [numpy] accepts their outputs, and nothing but the log changes. *)
Lemma predict_runs (w : windows R) (s : session) :
  predict w s
  = (Ok (column (map (net_sample (net_params s)) (trainX w)),
         column (map (net_sample (net_params s)) (testX w))),
     {| net_params := net_params s; net_grads := net_grads s;
        opt_state := opt_state s; grad_enabled := grad_enabled s;
        bar_description := bar_description s; stdout := stdout s;
        calls := calls s ++ [CallNet false (trainX w); CallNet false (testX w)] |}).
Proof.
  unfold predict, no_grad, bind, net, numpy, ret, set_grad_enabled, log.
  cbn. rewrite <- app_assoc. reflexivity.
Qed.

Lemma score_column (Y P : list R) :
  length Y = length P -> 0 < length Y ->
  score [Y] (column P)
  = if all_finite Y && all_finite P
    then Ok (math_sqrt (mean_squared Y P))
    else Raise ValueError.
Proof.
  intros Hlen Hpos. unfold score.
  change (get_row [Y] 0) with (@Ok (list R) Y).
  cbn [Res.bind].
  rewrite get_rows_col_column, column_length, slice_whole_prefix, firstn_all.
  cbn [Res.bind]. unfold mean_squared_error.
  rewrite Hlen, Nat.eqb_refl.
  destruct (Nat.ltb_spec 0 (length P)) as [_ | Hle]; [| lia].
  cbn [andb].
  destruct (all_finite Y && all_finite P); reflexivity.
Qed.

Lemma traverse_assign_column (d p : list R) :
  length d = length p ->
  Res.traverse (fun '(dst_row, src_row) => assign_row dst_row src_row)
    (combine (column d) (column p))
  = Ok (column p).
Proof.
  revert p. induction d as [| x d IH]; intros [| y p] Hlen;
    try discriminate; [reflexivity |].
  change (column (x :: d)) with ([x] :: column d).
  change (column (y :: p)) with ([y] :: column p).
  cbn [combine Res.traverse]. rewrite IH by (simpl in Hlen; lia).
  reflexivity.
Qed.

Lemma assign_rows_column (d p : list R) (lo hi : nat) :
  length (slice lo hi d) = length p ->
  assign_rows (column d) lo hi (column p)
  = Ok (column (firstn lo d ++ p ++ skipn (lo + length p) d)).
Proof.
  intros Hlen. unfold assign_rows.
  rewrite slice_column, !column_length, Hlen, Nat.eqb_refl. cbn [Res.bind].
  rewrite traverse_assign_column by exact Hlen. cbn [Res.bind].
  rewrite !column_app, firstn_column, skipn_column.
  reflexivity.
Qed.

Lemma prepare_counts (xs : list R) (L : nat) (w : windows R) :
  prepare (column xs) L = Ok w ->
  exists ts,
    train_size (length xs) = Ok ts
    /\ L + 2 <= ts /\ L + 2 <= length xs - ts
    /\ length (trainX w) = ts - L - 1
    /\ length (trainY w) = ts - L - 1
    /\ length (testX w) = length xs - ts - L - 1
    /\ length (testY w) = length xs - ts - L - 1
    /\ (forall i, i < ts - L - 1 -> nth_error (trainY w) i = nth_error xs (i + L))
    /\ (forall i, i < length xs - ts - L - 1 ->
          nth_error (testY w) i = nth_error xs (ts + L + i)).
Proof.
  intros H.
  destruct (prepare_inv _ _ _ _ H) as (ts & Hts & H1 & H2 & -> & -> & -> & ->).
  exists ts. unfold wrap_features.
  rewrite !length_map, !windows_of_length.
  rewrite !labels_of_length by (rewrite ?length_firstn, ?length_skipn; lia).
  repeat split; try assumption; try reflexivity.
  - intros i Hi. rewrite labels_of_nth_error by exact Hi.
    rewrite nth_error_firstn.
    destruct (Nat.ltb_spec (L + i) ts); [f_equal; lia | lia].
  - intros i Hi. rewrite labels_of_nth_error by exact Hi.
    rewrite nth_error_skipn. f_equal. lia.
Qed.

Lemma prepared_labels_no_infinity (xs : list R) (L : nat) (w : windows R) :
  prepare (column xs) L = Ok w ->
  no_infinity xs = true ->
  no_infinity (trainY w) = true /\ no_infinity (testY w) = true.
Proof.
  intros H Hxs.
  destruct (prepare_inv _ _ _ _ H) as (ts & _ & _ & _ & _ & -> & _ & ->).
  unfold labels_of. split.
  - apply no_infinity_slice, no_infinity_firstn, Hxs.
  - apply no_infinity_slice, no_infinity_skipn, Hxs.
Qed.

(** The evaluation cell, run on a prepared series whose values
    scikit-learn accepts: what it returns and the session it leaves. *)
Lemma evaluate_runs (sc : scaler) (xs : list R) (L : nat) (w : windows R)
    (s : session) :
  prepare (column xs) L = Ok w ->
  evaluation_accepts sc (net_params s) xs w = true ->
  evaluate sc (column xs) L w s
  = (Ok (evaluation_of sc (net_params s) xs L w), after_evaluation sc w s).
Proof.
  intros H Acc.
  destruct (prepare_counts _ _ _ H)
    as (ts & _ & H1 & H2 & LX1 & LY1 & LX2 & LY2 & _ & _).
  unfold evaluation_accepts in Acc.
  repeat (apply andb_prop in Acc; destruct Acc as [Acc ?]).
  destruct (prepared_labels_no_infinity _ _ _ H Acc) as [NY1 NY2].
  set (p := net_params s) in *.
  set (P1 := map (scaler_inverse sc) (map (net_sample p) (trainX w))) in *.
  set (P2 := map (scaler_inverse sc) (map (net_sample p) (testX w))) in *.
  set (nans := map (fun _ : R => nan) xs).
  assert (LP1 : length P1 = ts - L - 1)
    by (unfold P1; rewrite !length_map; exact LX1).
  assert (LP2 : length P2 = length xs - ts - L - 1)
    by (unfold P2; rewrite !length_map; exact LX2).
  unfold evaluate. unfold bind at 1. rewrite predict_runs. cbv beta iota.
  fold p.
  repeat (unfold bind at 1; unfold lift at 1;
          first [ rewrite inverse_transform_column by (rewrite ?length_map; lia)
                | rewrite inverse_transform_row by lia ];
          match goal with
          | Hc : ?c = true |- context [if ?c then _ else _] => rewrite Hc
          end; cbv beta iota).
  fold P1 P2.
  unfold bind at 1. unfold lift at 1.
  rewrite score_column by (rewrite ?length_map; lia).
  match goal with
  | Ha : ?a = true, Hb : ?b = true |- context [if ?a && ?b then _ else _] =>
      rewrite Ha, Hb
  end. cbv beta iota. cbn [andb].
  unfold bind at 1. unfold print at 1. cbv beta iota.
  unfold bind at 1. unfold lift at 1.
  rewrite score_column by (rewrite ?length_map; lia).
  match goal with
  | Ha : ?a = true, Hb : ?b = true |- context [if ?a && ?b then _ else _] =>
      rewrite Ha, Hb
  end. cbv beta iota. cbn [andb].
  unfold bind at 1. unfold print at 1. cbv beta iota.
  cbn [net_params net_grads opt_state grad_enabled bar_description stdout calls].
  unfold bind at 1. unfold lift at 1.
  unfold shift_train, shift_test.
  rewrite nan_like_column, !column_length. fold nans.
  rewrite assign_rows_column
    by (rewrite slice_length; unfold nans; rewrite length_map; lia).
  cbv beta iota.
  unfold bind at 1. unfold lift at 1.
  rewrite assign_rows_column
    by (rewrite slice_length; unfold nans; rewrite length_map; lia).
  cbv beta iota.
  unfold ret, evaluation_of, after_evaluation, rmse. fold p P1 P2 nans.
  rewrite <- app_assoc. reflexivity.
Qed.

(** When scikit-learn refuses one of the values, the cell raises. *)
Lemma evaluate_raises (sc : scaler) (xs : list R) (L : nat) (w : windows R)
    (s : session) :
  prepare (column xs) L = Ok w ->
  evaluation_accepts sc (net_params s) xs w = false ->
  fst (evaluate sc (column xs) L w s) = Raise ValueError.
Proof.
  intros H Acc.
  destruct (prepare_counts _ _ _ H)
    as (ts & _ & H1 & H2 & LX1 & LY1 & LX2 & LY2 & _ & _).
  unfold evaluation_accepts in Acc.
  set (p := net_params s) in *.
  unfold evaluate. unfold bind at 1. rewrite predict_runs. cbv beta iota.
  fold p.
  rewrite !inverse_transform_column by (rewrite ?length_map; lia).
  rewrite !inverse_transform_row by lia.
  destruct (no_infinity (map (net_sample p) (trainX w))) eqn:C1;
    [| reflexivity].
  unfold bind at 1. unfold lift at 1. cbv beta iota.
  destruct (no_infinity (trainY w)) eqn:C2; [| reflexivity].
  unfold bind at 1. unfold lift at 1. cbv beta iota.
  destruct (no_infinity (map (net_sample p) (testX w))) eqn:C3;
    [| reflexivity].
  unfold bind at 1. unfold lift at 1. cbv beta iota.
  destruct (no_infinity (testY w)) eqn:C4; [| reflexivity].
  unfold bind at 1. unfold lift at 1. cbv beta iota.
  rewrite !score_column by (rewrite ?length_map; lia).
  destruct (all_finite (map (scaler_inverse sc) (trainY w))) eqn:C5;
    [| reflexivity].
  destruct (all_finite (map (scaler_inverse sc)
                          (map (net_sample p) (trainX w)))) eqn:C6;
    [| reflexivity].
  unfold bind at 1. unfold lift at 1. cbv beta iota. cbn [andb].
  unfold bind at 1. unfold print at 1. cbv beta iota.
  destruct (all_finite (map (scaler_inverse sc) (testY w))) eqn:C7;
    [| reflexivity].
  destruct (all_finite (map (scaler_inverse sc)
                          (map (net_sample p) (testX w)))) eqn:C8;
    [| reflexivity].
  destruct (no_infinity xs) eqn:C9; [discriminate Acc |].
  unfold bind at 1. unfold lift at 1. cbv beta iota. cbn [andb].
  unfold bind at 1. unfold print at 1. cbv beta iota.
  unfold shift_train, shift_test.
  rewrite nan_like_column, !column_length.
  rewrite !assign_rows_column
    by (rewrite slice_length, !length_map; lia).
  reflexivity.
Qed.

(** If the evaluation cell returns, it returns what it is to return. *)
Lemma evaluate_inv (sc : scaler) (xs : list R) (L : nat) (w : windows R)
    (s s' : session) (ev : evaluation) :
  prepare (column xs) L = Ok w ->
  evaluate sc (column xs) L w s = (Ok ev, s') ->
  evaluation_accepts sc (net_params s) xs w = true
  /\ ev = evaluation_of sc (net_params s) xs L w
  /\ s' = after_evaluation sc w s.
Proof.
  intros H Hev.
  destruct (evaluation_accepts sc (net_params s) xs w) eqn:Acc.
  - rewrite (evaluate_runs sc xs L w s H Acc) in Hev.
    injection Hev as <- <-. repeat split.
  - pose proof (evaluate_raises sc xs L w s H Acc) as Hr.
    rewrite Hev in Hr. discriminate Hr.
Qed.

(** Overwriting the entries [lo .. lo + len p - 1] of [d] by [p]. *)
Lemma spliced_length (A : Type) (d p : list A) (lo : nat) :
  lo + length p <= length d ->
  length (firstn lo d ++ p ++ skipn (lo + length p) d) = length d.
Proof.
  intros H. rewrite !length_app, length_firstn, length_skipn. lia.
Qed.

Lemma spliced_inside (A : Type) (d p : list A) (lo i : nat) :
  lo <= length d -> i < length p ->
  nth_error (firstn lo d ++ p ++ skipn (lo + length p) d) (lo + i)
  = nth_error p i.
Proof.
  intros Hlo Hi.
  rewrite nth_error_app2 by (rewrite length_firstn; lia).
  rewrite length_firstn, nth_error_app1 by lia.
  f_equal. lia.
Qed.

Lemma spliced_outside (A : Type) (d p : list A) (lo k : nat) :
  lo + length p <= length d ->
  k < lo \/ lo + length p <= k ->
  nth_error (firstn lo d ++ p ++ skipn (lo + length p) d) k = nth_error d k.
Proof.
  intros Hlen [Hk | Hk].
  - rewrite nth_error_app1 by (rewrite length_firstn; lia).
    rewrite nth_error_firstn.
    destruct (Nat.ltb_spec k lo); [reflexivity | lia].
  - rewrite nth_error_app2 by (rewrite length_firstn; lia).
    rewrite length_firstn, nth_error_app2 by lia.
    rewrite nth_error_skipn. f_equal. lia.
Qed.

Lemma nans_nth_error (xs : list R) (k : nat) :
  k < length xs ->
  nth_error (column (map (fun _ : R => nan) xs)) k = Some [nan].
Proof.
  intros Hk. rewrite column_nth_error, nth_error_map.
  destruct (nth_error xs k) eqn:E; [reflexivity |].
  apply nth_error_None in E. lia.
Qed.

(** *** The model is left alone *)

Lemma keeps_model_ret (X : Type) (x : X) : keeps_model (ret x).
Proof. intros s. repeat split. Qed.

Lemma keeps_model_lift (X : Type) (r : result X) : keeps_model (lift r).
Proof. intros s. repeat split. Qed.

Lemma keeps_model_raise (X : Type) (e : exn) : keeps_model (@raise X e).
Proof. intros s. repeat split. Qed.

Lemma keeps_model_print (line : string) : keeps_model (print line).
Proof. intros s. repeat split. Qed.

Lemma keeps_model_net (x : list (list (list R))) : keeps_model (net x).
Proof. intros s. repeat split. Qed.

Lemma keeps_model_numpy (T : Type) (t : tensor T) : keeps_model (numpy t).
Proof.
  unfold numpy. destruct (grad_fn t).
  - apply keeps_model_raise.
  - apply keeps_model_ret.
Qed.

Lemma keeps_model_bind (X Y : Type) (c : cell X) (k : X -> cell Y) :
  keeps_model c -> (forall x, keeps_model (k x)) -> keeps_model (bind c k).
Proof.
  intros Hc Hk s. unfold bind.
  destruct (Hc s) as (H1 & H2 & H3).
  destruct (c s) as [[x | e] s1]; cbn [snd] in *.
  - destruct (Hk x s1) as (K1 & K2 & K3).
    rewrite K1, K2, K3. repeat split; assumption.
  - repeat split; assumption.
Qed.

Lemma keeps_model_no_grad (X : Type) (body : cell X) :
  keeps_model body -> keeps_model (no_grad body).
Proof.
  intros Hb s. unfold no_grad.
  destruct (Hb (set_grad_enabled false s)) as (H1 & H2 & H3).
  destruct (body (set_grad_enabled false s)) as [r s1]; cbn [snd] in *.
  repeat split; assumption.
Qed.

Lemma keeps_model_predict (w : windows R) : keeps_model (predict w).
Proof.
  unfold predict. apply keeps_model_no_grad.
  apply keeps_model_bind; [apply keeps_model_net | intros t1].
  apply keeps_model_bind; [apply keeps_model_numpy | intros a1].
  apply keeps_model_bind; [apply keeps_model_net | intros t2].
  apply keeps_model_bind; [apply keeps_model_numpy | intros a2].
  apply keeps_model_ret.
Qed.

Lemma keeps_model_evaluate (sc : scaler) (dataset : array2 R) (L : nat)
    (w : windows R) :
  keeps_model (evaluate sc dataset L w).
Proof.
  unfold evaluate.
  apply keeps_model_bind; [apply keeps_model_predict | intros [a1 a2]].
  apply keeps_model_bind; [apply keeps_model_lift | intros i1].
  apply keeps_model_bind; [apply keeps_model_lift | intros i2].
  apply keeps_model_bind; [apply keeps_model_lift | intros i3].
  apply keeps_model_bind; [apply keeps_model_lift | intros i4].
  apply keeps_model_bind; [apply keeps_model_lift | intros sc1].
  apply keeps_model_bind; [apply keeps_model_print | intros _].
  apply keeps_model_bind; [apply keeps_model_lift | intros sc2].
  apply keeps_model_bind; [apply keeps_model_print | intros _].
  apply keeps_model_bind; [apply keeps_model_lift | intros p1].
  apply keeps_model_bind; [apply keeps_model_lift | intros p2].
  apply keeps_model_bind; [apply keeps_model_lift | intros b0].
  apply keeps_model_ret.
Qed.

(** C9. Computing the train and test predictions leaves every model
    parameter as it was at the end of training: the two forward passes run
    without recording, and neither they nor the rest of the evaluation cell
    write the parameters, the gradient buffers or the optimizer state. *)
Theorem inference_keeps_parameters (sc : scaler) (dataset : array2 R)
    (L : nat) (w : windows R) (s : session) :
  (exists out s',
     predict w s = (Ok out, s')
     /\ out = (column (map (net_sample (net_params s)) (trainX w)),
               column (map (net_sample (net_params s)) (testX w)))
     /\ net_params s' = net_params s
     /\ net_grads s' = net_grads s
     /\ opt_state s' = opt_state s
     /\ grad_enabled s' = grad_enabled s
     /\ calls s' = calls s ++ [CallNet false (trainX w); CallNet false (testX w)])
  /\ net_params (snd (evaluate sc dataset L w s)) = net_params s
  /\ net_params (snd (evaluate sc dataset L w (snd (training w s))))
     = net_params (snd (training w s)).
Proof.
  split.
  - eexists. eexists. split; [apply predict_runs |].
    repeat split.
  - split; apply keeps_model_evaluate.
Qed.


(** C7. Whenever the evaluation cell returns on a prepared series, its two
    shifts undo the trim of the windowing: train prediction [i] is written at
    index [i + look_back] of the plotted array and test prediction [i] at
    index [train_size + look_back + i], which are the positions of the
    series the labels of these windows were read at; the slices written to
    have the lengths of the prediction arrays, and every other entry stays
    [nan]. *)
Theorem plot_shifts_align (sc : scaler) (xs : list R) (L : nat)
    (w : windows R) (s s' : session) (ev : evaluation) :
  prepare (column xs) L = Ok w ->
  evaluate sc (column xs) L w s = (Ok ev, s') ->
  exists ts,
    train_size (length xs) = Ok ts
    /\ shift_train (column xs) L (trainPredict ev)
       = Ok (trainPredictPlot (shown ev))
    /\ shift_test (column xs) L (trainPredict ev) (testPredict ev)
       = Ok (testPredictPlot (shown ev))
    /\ length (slice L (length (trainPredict ev) + L) (nan_like (column xs)))
       = length (trainPredict ev)
    /\ length (slice (length (trainPredict ev) + L * 2 + 1)
                 (length (column xs) - 1) (nan_like (column xs)))
       = length (testPredict ev)
    /\ length (trainPredict ev) + L * 2 + 1 = ts + L
    /\ length (trainPredict ev) = ts - L - 1
    /\ length (testPredict ev) = length xs - ts - L - 1
    /\ length (trainPredictPlot (shown ev)) = length xs
    /\ length (testPredictPlot (shown ev)) = length xs
    /\ (forall i, i < length (trainPredict ev) ->
          nth_error (trainPredictPlot (shown ev)) (i + L)
          = nth_error (trainPredict ev) i
          /\ nth_error (trainY w) i = nth_error xs (i + L)
          /\ i + L < length xs)
    /\ (forall i, i < length (testPredict ev) ->
          nth_error (testPredictPlot (shown ev)) (ts + L + i)
          = nth_error (testPredict ev) i
          /\ nth_error (testY w) i = nth_error xs (ts + L + i)
          /\ ts + L + i < length xs)
    /\ (forall k, k < length xs ->
          k < L \/ length (trainPredict ev) + L <= k ->
          nth_error (trainPredictPlot (shown ev)) k = Some [nan])
    /\ (forall k, k < length xs ->
          k < ts + L \/ ts + L + length (testPredict ev) <= k ->
          nth_error (testPredictPlot (shown ev)) k = Some [nan]).
Proof.
  intros H Hev.
  destruct (prepare_counts _ _ _ H)
    as (ts & Hts & H1 & H2 & LX1 & LY1 & LX2 & LY2 & Lab1 & Lab2).
  destruct (evaluate_inv sc xs L w s s' ev H Hev) as (_ & -> & _).
  unfold evaluation_of.
  set (P1 := map (scaler_inverse sc) (map (net_sample (net_params s)) (trainX w))) in *.
  set (P2 := map (scaler_inverse sc) (map (net_sample (net_params s)) (testX w))) in *.
  set (nans := map (fun _ : R => nan) xs) in *.
  assert (LP1 : length P1 = ts - L - 1)
    by (unfold P1; rewrite !length_map; exact LX1).
  assert (LP2 : length P2 = length xs - ts - L - 1)
    by (unfold P2; rewrite !length_map; exact LX2).
  assert (Ln : length nans = length xs) by (unfold nans; apply length_map).
  exists ts.
  cbn [trainPredict testPredict shown trainPredictPlot testPredictPlot].
  unfold shift_train, shift_test.
  rewrite nan_like_column, !column_length. fold nans.
  rewrite !slice_column, !column_length, !slice_length.
  rewrite !assign_rows_column by (rewrite slice_length; lia).
  rewrite !spliced_length by lia.
  split; [exact Hts |].
  split; [reflexivity |]. split; [reflexivity |].
  split; [lia |]. split; [lia |]. split; [lia |].
  split; [lia |]. split; [lia |]. split; [lia |]. split; [lia |].
  split; [| split; [| split]].
  - intros i Hi.
    rewrite (Nat.add_comm i L), !column_nth_error, spliced_inside by lia.
    split; [reflexivity |].
    split; [rewrite Nat.add_comm; apply Lab1; lia | lia].
  - intros i Hi.
    replace (ts + L + i) with (length P1 + L * 2 + 1 + i) at 1 by lia.
    rewrite !column_nth_error, spliced_inside by lia.
    split; [reflexivity |].
    split; [apply Lab2; lia | lia].
  - intros k Hk Hout.
    rewrite column_nth_error, spliced_outside by lia.
    rewrite <- column_nth_error. apply nans_nth_error. exact Hk.
  - intros k Hk Hout.
    rewrite column_nth_error, spliced_outside by lia.
    rewrite <- column_nth_error. apply nans_nth_error. exact Hk.
Qed.

(** ** The whole notebook *)

Lemma training_runs (w : windows R) (s : session) :
  length (trainX w) = length (trainY w) ->
  grad_enabled s = true ->
  training w s
  = (Ok tt,
     Nat.iter (Z.to_nat iterations) (one_training_step w) (snd (make_optimizer s))).
Proof.
  intros Hlen Hgrad. unfold training, train_loop, range.
  unfold bind at 1. unfold make_optimizer at 1.
  rewrite for_in_training by assumption. reflexivity.
Qed.

(** The cells that look at the data, on a prepared series. *)
Lemma look_at_data_prepared (xs : list R) (L : nat) (w : windows R) :
  prepare (column xs) L = Ok w ->
  0 < L ->
  if 15 <? length (trainX w)
  then exists x y,
      nth_error xs 15 = Some x
      /\ nth_error xs (15 + L) = Some y
      /\ look_at_data w
         = Ok {| shape_trainX := (length (trainX w), L, 1);
                 shape_trainY := length (trainY w);
                 trainX_15_0 := [x];
                 trainY_15 := y |}
  else look_at_data w = Raise IndexError.
Proof.
  intros H HL.
  destruct (prepare_counts _ _ _ H)
    as (ts & _ & H1 & H2 & LX1 & LY1 & _ & _ & Lab1 & _).
  destruct (prepare_inv _ _ _ _ H) as (ts' & _ & _ & _ & EX1 & _ & _ & _).
  assert (Ets : ts' = ts).
  { apply (f_equal (@length _)) in EX1.
    unfold wrap_features in EX1.
    rewrite length_map, windows_of_length, LX1 in EX1. lia. }
  subst ts'. unfold look_at_data, get_step.
  destruct (Nat.ltb_spec 15 (length (trainX w))) as [Hlt | Hge].
  - destruct (nth_error xs 15) as [x |] eqn:Ex.
    2:{ apply nth_error_None in Ex. lia. }
    destruct (nth_error xs (15 + L)) as [y |] eqn:Ey.
    2:{ apply nth_error_None in Ey. lia. }
    exists x, y. split; [reflexivity |]. split; [reflexivity |].
    assert (Hd : length (hd [] (trainX w)) = L).
    { rewrite EX1. unfold wrap_features, windows_of.
      replace (ts - L - 1) with (S (ts - L - 2)) by lia.
      cbn [seq map hd]. rewrite length_map, slice_length, length_firstn. lia. }
    rewrite Hd.
    assert (Es : nth_error (trainX w) 15
                 = Some (map (fun v => [v]) (slice 15 (15 + L) (firstn ts xs)))).
    { rewrite EX1. unfold wrap_features.
      rewrite nth_error_map, windows_of_nth_error by lia. reflexivity. }
    rewrite Es. unfold item at 1.
    rewrite nth_error_map, slice_nth_error by lia.
    rewrite nth_error_firstn.
    destruct (Nat.ltb_spec (15 + 0) ts) as [_ | Hbad]; [| lia].
    rewrite Nat.add_0_r, Ex. cbn [option_map Res.bind].
    unfold item. rewrite (Lab1 15) by lia. rewrite Ey. reflexivity.
  - destruct (nth_error (trainX w) 15) eqn:E; [| reflexivity].
    assert (15 < length (trainX w)) by (apply nth_error_Some; congruence).
    lia.
Qed.

(** X11. From the raw series to the scores. The scaler is fit on the whole
    series. When scikit-learn accepts the raw series, the preparation cell
    returns, the training partition gives more than 15 windows, autograd is
    recording, and scikit-learn accepts what the trained parameters
    predict, every cell returns; the log is the 5000 training iterations
    followed by the two inference passes, and the scores printed are those
    of the parameters the training ended with. *)
Theorem notebook_runs (raw : list R) (w : windows R) (s : session) :
  let sc := scaler_fit (column raw) in
  let xs := map (scaler_transform sc) raw in
  let trained := Nat.iter (Z.to_nat iterations) (one_training_step w)
                   (snd (make_optimizer s)) in
  no_infinity raw = true ->
  prepare (column xs) look_back = Ok w ->
  15 < length (trainX w) ->
  grad_enabled s = true ->
  evaluation_accepts sc (net_params trained) xs w = true ->
  exists seen ev s',
    notebook (column raw) s = (Ok (seen, ev), s')
    /\ Some (trainX_15_0 seen) = option_map (fun x => [x]) (nth_error xs 15)
    /\ Some (trainY_15 seen) = nth_error xs (15 + look_back)
    /\ net_params s' = net_params trained
    /\ calls s'
       = calls s ++ concat (repeat (iteration_calls w) (Z.to_nat iterations))
         ++ [CallNet false (trainX w); CallNet false (testX w)]
    /\ trainScore ev = rmse sc (net_params s') (trainX w) (trainY w)
    /\ testScore ev = rmse sc (net_params s') (testX w) (testY w)
    /\ stdout s'
       = stdout s
         ++ [("Train Score: " ++ float_2f (trainScore ev) ++ " RMSE")%string;
             ("Test Score: " ++ float_2f (testScore ev) ++ " RMSE")%string].
Proof.
  intros sc xs trained Hraw Hprep H15 Hgrad Acc.
  destruct (prepare_lengths _ _ _ _ Hprep) as (Hlen & _).
  destruct (prepare_counts _ _ _ Hprep) as (ts & _ & H1 & H2 & _).
  assert (Hpos : 0 < length raw).
  { unfold xs in H2. rewrite length_map in H2. lia. }
  pose proof (look_at_data_prepared xs look_back w Hprep
                ltac:(unfold look_back; lia)) as Hlook.
  destruct (Nat.ltb_spec 15 (length (trainX w))) as [_ | Hbad]; [| lia].
  destruct Hlook as (x & y & Ex & Ey & Hlook).
  unfold notebook, fit_transform.
  rewrite scaler_accepts_column by exact Hpos. rewrite Hraw.
  replace (map (map (scaler_transform (scaler_fit (column raw)))) (column raw))
    with (column xs)
    by (unfold xs, sc, column; rewrite !map_map; reflexivity).
  fold sc. unfold bind at 1. unfold lift at 1. cbv beta iota zeta.
  unfold bind at 1. unfold lift at 1. rewrite Hprep.
  unfold bind at 1. unfold lift at 1. rewrite Hlook.
  unfold bind at 1. rewrite training_runs by assumption. fold trained.
  unfold bind at 1.
  rewrite (evaluate_runs sc xs look_back w trained Hprep Acc).
  unfold ret.
  eexists. eexists. eexists. split; [reflexivity |].
  unfold after_evaluation, evaluation_of.
  cbn [net_params calls stdout trainScore testScore trainX_15_0 trainY_15].
  rewrite Ex, Ey. unfold trained.
  rewrite iter_training_calls, iter_training_stdout.
  unfold make_optimizer. cbn [snd calls stdout option_map].
  rewrite <- app_assoc. repeat split.
Qed.

(** ** Running the cells again *)



(** X10. The evaluation cell can be run again: if it returns on a
    prepared series, then run once more on the session it left it returns
    the same predictions, scores and plotted arrays, and prints the same
    two lines a second time. *)
Theorem evaluation_repeatable (sc : scaler) (xs : list R) (L : nat)
    (w : windows R) (s s1 : session) (ev : evaluation) :
  prepare (column xs) L = Ok w ->
  evaluate sc (column xs) L w s = (Ok ev, s1) ->
  exists s2,
    evaluate sc (column xs) L w s1 = (Ok ev, s2)
    /\ net_params s2 = net_params s
    /\ stdout s2
       = stdout s
         ++ [("Train Score: " ++ float_2f (trainScore ev) ++ " RMSE")%string;
             ("Test Score: " ++ float_2f (testScore ev) ++ " RMSE")%string]
         ++ [("Train Score: " ++ float_2f (trainScore ev) ++ " RMSE")%string;
             ("Test Score: " ++ float_2f (testScore ev) ++ " RMSE")%string].
Proof.
  intros H Hev.
  destruct (evaluate_inv sc xs L w s s1 ev H Hev) as (Acc & -> & ->).
  assert (Acc1 : evaluation_accepts sc (net_params (after_evaluation sc w s))
                   xs w = true) by exact Acc.
  eexists. split; [apply (evaluate_runs sc xs L w _ H Acc1) |].
  unfold after_evaluation, evaluation_of.
  cbn [net_params stdout trainScore testScore].
  rewrite <- app_assoc. split; reflexivity.
Qed.

(** X12. The cell that displays [trainX[15, 0, :]] and [trainY[15]] needs 16
    training windows: with more than 15 it shows the entry 15 of the series
    and the label read [L] positions later; with fewer the index is out of
    range and it raises [IndexError]. *)
Theorem look_at_data_needs_16_windows (xs : list R) (L : nat) (w : windows R) :
  prepare (column xs) L = Ok w ->
  0 < L ->
  (15 < length (trainX w) ->
   exists seen x y,
     look_at_data w = Ok seen
     /\ nth_error xs 15 = Some x
     /\ nth_error xs (15 + L) = Some y
     /\ trainX_15_0 seen = [x]
     /\ trainY_15 seen = y
     /\ shape_trainX seen = (length (trainX w), L, 1)
     /\ shape_trainY seen = length (trainX w))
  /\ (length (trainX w) <= 15 -> look_at_data w = Raise IndexError).
Proof.
  intros H HL.
  pose proof (look_at_data_prepared xs L w H HL) as Hlook.
  destruct (prepare_lengths _ _ _ _ H) as (Hlen & _).
  destruct (Nat.ltb_spec 15 (length (trainX w))) as [Hlt | Hge].
  - split; [intros _ | lia].
    destruct Hlook as (x & y & Ex & Ey & Hlook).
    eexists. exists x, y. split; [exact Hlook |].
    cbn [trainX_15_0 trainY_15 shape_trainX shape_trainY].
    rewrite Hlen. repeat split; assumption.
  - split; [lia | intros _; exact Hlook].
Qed.

End Notebook.

(** ** More on the windowing transform *)

Section WindowingMore.

Variable A : Type.

Lemma slice_app_left (xs ys : list A) (lo hi : nat) :
  hi <= length xs -> slice lo hi (xs ++ ys) = slice lo hi xs.
Proof.
  intros Hhi. unfold slice.
  rewrite skipn_app, firstn_app, length_skipn.
  replace (hi - lo - (length xs - lo)) with 0 by lia.
  rewrite firstn_O, app_nil_r. reflexivity.
Qed.

Lemma windows_of_ext (xs ys : list A) (L c : nat) :
  (forall i, i < c -> slice i (i + L) xs = slice i (i + L) ys) ->
  windows_of xs L c = windows_of ys L c.
Proof.
  intros H. unfold windows_of. apply map_ext_in.
  intros i Hi. apply in_seq in Hi. apply H. lia.
Qed.

(** X1. The transform never reads the last entry of the series: replacing
    it by any other value changes neither the windows nor the labels. *)
Theorem create_dataset_ignores_last (xs : list A) (a b : A) (L : nat) :
  create_dataset (column (xs ++ [a])) L = create_dataset (column (xs ++ [b])) L.
Proof.
  rewrite !create_dataset_column, !length_app, !pair_count_nat.
  cbn [length]. f_equal. f_equal.
  - transitivity (windows_of xs L (length xs + 1 - L - 1)).
    + apply windows_of_ext. intros i Hi. apply slice_app_left. lia.
    + symmetry. apply windows_of_ext. intros i Hi. apply slice_app_left. lia.
  - unfold labels_of.
    destruct (Nat.le_gt_cases L (length xs)) as [Hle | Hgt].
    + rewrite !slice_app_left by lia. reflexivity.
    + unfold slice. replace (L + (length xs + 1 - L - 1) - L) with 0 by lia.
      reflexivity.
Qed.

(** The transform on any array whose column 0 is [xs]. *)
Lemma first_column_item (ds : array2 A) (xs : list A) (k : nat) :
  Forall2 (fun row x => nth_error row 0 = Some x) ds xs ->
  get2 ds k 0 = get2 (column xs) k 0.
Proof.
  intros H. revert k. induction H as [| row x ds xs Hrow _ IH]; intros k.
  - destruct k; reflexivity.
  - destruct k as [| k].
    + change (get2 (row :: ds) 0 0) with (item row 0).
      unfold item. rewrite Hrow. reflexivity.
    + apply (IH k).
Qed.

Lemma first_column_firstn (ds : array2 A) (xs : list A) (n : nat) :
  Forall2 (fun row x => nth_error row 0 = Some x) ds xs ->
  Forall2 (fun row x => nth_error row 0 = Some x) (firstn n ds) (firstn n xs).
Proof.
  intros H. revert n. induction H as [| row x ds xs Hrow _ IH]; intros [| n];
    cbn; constructor; auto.
Qed.

Lemma first_column_skipn (ds : array2 A) (xs : list A) (n : nat) :
  Forall2 (fun row x => nth_error row 0 = Some x) ds xs ->
  Forall2 (fun row x => nth_error row 0 = Some x) (skipn n ds) (skipn n xs).
Proof.
  intros H. revert n. induction H as [| row x ds xs Hrow H' IH]; intros [| n];
    cbn; try constructor; auto.
Qed.

Lemma first_column_traverse (ds : array2 A) (xs : list A) :
  Forall2 (fun row x => nth_error row 0 = Some x) ds xs ->
  Res.traverse (fun row : list A => item row 0) ds = Ok xs.
Proof.
  induction 1 as [| row x ds xs Hrow _ IH]; [reflexivity |].
  cbn [Res.traverse]. unfold item at 1. rewrite Hrow, IH. reflexivity.
Qed.

Lemma first_column_rows (ds : array2 A) (xs : list A) (lo hi : nat) :
  Forall2 (fun row x => nth_error row 0 = Some x) ds xs ->
  get_rows_col ds lo hi 0 = get_rows_col (column xs) lo hi 0.
Proof.
  intros H. rewrite get_rows_col_column. unfold get_rows_col, slice.
  apply first_column_traverse, first_column_firstn, first_column_skipn, H.
Qed.

Lemma for_each_ext (X St : Type) (f g : X -> St -> result St) (l : list X)
    (s : St) :
  (forall x s', f x s' = g x s') ->
  Res.for_each l f s = Res.for_each l g s.
Proof.
  intros H. revert s. induction l as [| x l IH]; intros s; [reflexivity |].
  cbn [Res.for_each]. rewrite H. destruct (g x s); [apply IH | reflexivity].
Qed.

(** X2. Only column 0 of the array is read: on an array with further
    columns the transform returns what it returns on the one-column array
    of the first entries of the rows. *)
Theorem create_dataset_first_column (ds : array2 A) (xs : list A) (L : nat) :
  Forall2 (fun row x => nth_error row 0 = Some x) ds xs ->
  create_dataset ds L = create_dataset (column xs) L.
Proof.
  intros H. unfold create_dataset, len.
  rewrite column_length, (Forall2_length H).
  apply for_each_ext. intros i [dataX dataY]. unfold create_dataset_body.
  rewrite (first_column_rows _ _ _ _ H), (first_column_item _ _ _ H).
  reflexivity.
Qed.

(** X3. Windowing commutes with any entry-wise map of the series, such as
    the scaling: the pairs of the mapped series are the mapped pairs. *)
Theorem create_dataset_map (B : Type) (f : A -> B) (xs : list A) (L : nat) :
  exists dataX dataY,
    create_dataset (column xs) L = Ok (dataX, dataY)
    /\ create_dataset (column (map f xs)) L
       = Ok (map (map f) dataX, map f dataY).
Proof.
  eexists. eexists. split; [apply create_dataset_column |].
  rewrite create_dataset_column, length_map.
  unfold windows_of, labels_of. rewrite map_map, <- slice_map.
  do 2 f_equal. apply map_ext. intros i. apply slice_map.
Qed.

Lemma seq_offset (a n : nat) : seq a n = map (fun j => a + j) (seq 0 n).
Proof.
  induction n as [| n IH]; [reflexivity |].
  rewrite !seq_S, map_app, IH. reflexivity.
Qed.

Lemma firstn_of_seq (n a len : nat) :
  firstn n (seq a len) = seq a (Nat.min n len).
Proof.
  revert a len. induction n as [| n IH]; intros a [| len]; cbn; try reflexivity.
  f_equal. apply IH.
Qed.

Lemma firstn_slice (xs : list A) (lo hi k : nat) :
  firstn k (slice lo hi xs) = slice lo (Nat.min hi (lo + k)) xs.
Proof.
  unfold slice. rewrite firstn_firstn. f_equal. lia.
Qed.

Lemma skipn_slice (xs : list A) (lo hi k : nat) :
  skipn k (slice lo hi xs) = slice (lo + k) hi xs.
Proof.
  unfold slice. rewrite skipn_firstn_comm, skipn_skipn.
  f_equal; [lia | f_equal; lia].
Qed.

Lemma slice_empty (xs : list A) (lo hi : nat) :
  hi <= lo \/ length xs <= lo -> slice lo hi xs = [].
Proof.
  intros H. apply length_zero_iff_nil. rewrite slice_length. lia.
Qed.

(** X4. Splitting first and windowing each partition returns the pairs of
    the unsplit series with the pairs [train_size - L - 1 .. train_size - 1]
    left out: the train pairs are the first [train_size - L - 1] pairs, the
    test pairs are the pairs from index [train_size] on. *)
Theorem split_drops_boundary_pairs (xs : list A) (parts : partitions A)
    (L : nat) :
  split (column xs) = Ok parts ->
  let ts := part_train_size parts in
  exists dataX dataY,
    create_dataset (column xs) L = Ok (dataX, dataY)
    /\ create_dataset (part_train parts) L
       = Ok (firstn (ts - L - 1) dataX, firstn (ts - L - 1) dataY)
    /\ create_dataset (part_test parts) L
       = Ok (skipn ts dataX, skipn ts dataY).
Proof.
  intros H ts. destruct (partition_windows _ xs parts L H) as [Htr Hte].
  fold ts in Htr, Hte.
  eexists. eexists. split; [apply create_dataset_column |].
  rewrite Htr, Hte, !pair_count_nat, length_firstn, length_skipn.
  unfold windows_of, labels_of.
  rewrite firstn_map, firstn_of_seq, skipn_map, skipn_seq, firstn_slice, skipn_slice.
  split.
  - f_equal. f_equal.
    + replace (Nat.min (ts - L - 1) (length xs - L - 1))
        with (Nat.min ts (length xs) - L - 1) by lia.
      apply map_ext_in. intros i Hi. apply in_seq in Hi.
      destruct (Nat.le_gt_cases ts (length xs)) as [Hle | Hgt].
      * apply slice_firstn. lia.
      * rewrite firstn_all2 by lia. reflexivity.
    + destruct (Nat.le_gt_cases ts (length xs)) as [Hle | Hgt].
      * destruct (Nat.le_gt_cases ts (L + 1)) as [Hs | Hb].
        -- rewrite !slice_empty by lia. reflexivity.
        -- rewrite slice_firstn by lia. f_equal. lia.
      * rewrite firstn_all2 by lia. f_equal. lia.
  - f_equal. f_equal.
    + rewrite (seq_offset (0 + ts)), map_map.
      replace (length xs - L - 1 - ts) with (length xs - ts - L - 1) by lia.
      apply map_ext. intros j. rewrite slice_skipn. f_equal; lia.
    + rewrite slice_skipn.
      destruct (Nat.le_gt_cases (length xs) (ts + L + 1)) as [Hs | Hb].
      * rewrite !slice_empty by lia. reflexivity.
      * f_equal; lia.
Qed.

End WindowingMore.

(** ** More on the preparation cell *)

Section PrepareMore.

Variable A : Type.

(** X5. Once the train size is computed, the preparation cell returns
    exactly when both partitions hold at least [L + 2] entries, one window
    each; in every other case the reshape raises [IndexError]. *)
Theorem prepare_returns_iff (xs : list A) (L ts : nat) :
  train_size (length xs) = Ok ts ->
  ((exists w, prepare (column xs) L = Ok w)
   <-> L + 2 <= ts /\ L + 2 <= length xs - ts)
  /\ (prepare (column xs) L = Raise IndexError
      <-> ts < L + 2 \/ length xs - ts < L + 2).
Proof.
  intros Hts. rewrite prepare_column, Hts.
  destruct (Nat.leb_spec (L + 2) (Nat.min ts (length xs))) as [H1 | H1];
    destruct (Nat.leb_spec (L + 2) (length xs - ts)) as [H2 | H2];
    cbn [andb]; (split; split;
      [ intros [w Hw]; try discriminate; lia
      | intros Hc; try lia; eexists; reflexivity
      | intros Hr; try discriminate; lia
      | intros Hc; try lia; reflexivity ]).
Qed.

(** X6. With the window length 5 of the notebook, a series (of fewer than
    [2^16] values) is prepared exactly when it has at least 19 values; on a
    shorter one the cell raises [IndexError]. *)
Theorem prepare_needs_19_values (xs : list A) :
  length xs < N.to_nat 65536 ->
  (19 <= length xs -> exists w, prepare (column xs) look_back = Ok w)
  /\ (length xs < 19 -> prepare (column xs) look_back = Raise IndexError).
Proof.
  intros Hn.
  pose proof (train_size_floor _ Hn) as Hts.
  rewrite prepare_column, Hts.
  pose proof (Nat.Div0.mul_div_le (67 * length xs) 100) as Hlo.
  assert (Hhi : 67 * length xs < 100 * S (67 * length xs / 100))
    by (apply Nat.mul_succ_div_gt; discriminate).
  set (q := 67 * length xs / 100) in *.
  unfold look_back.
  destruct (Nat.leb_spec (5 + 2) (Nat.min q (length xs))) as [H1 | H1];
    destruct (Nat.leb_spec (5 + 2) (length xs - q)) as [H2 | H2];
    cbn [andb]; split; intros Hc; try lia; try reflexivity;
    eexists; reflexivity.
Qed.

(** X7. What the preparation cell hands on: as many labels as windows in
    each partition, every window [L] steps of one feature each, and
    [2 * L + 2] pairs fewer than the series has entries. *)
Theorem prepared_shapes (xs : list A) (L : nat) (w : windows A) :
  prepare (column xs) L = Ok w ->
  exists ts,
    train_size (length xs) = Ok ts
    /\ length (trainX w) = ts - L - 1
    /\ length (trainY w) = ts - L - 1
    /\ length (testX w) = length xs - ts - L - 1
    /\ length (testY w) = length xs - ts - L - 1
    /\ length (trainX w) + length (testX w) + (2 * L + 2) = length xs
    /\ Forall (fun sample => length sample = L
                             /\ Forall (fun step => length step = 1) sample)
         (trainX w ++ testX w).
Proof.
  intros H.
  destruct (prepare_counts _ _ _ _ H)
    as (ts & Hts & H1 & H2 & LX1 & LY1 & LX2 & LY2 & _ & _).
  destruct (prepare_inv _ _ _ _ H) as (ts' & Hts' & _ & _ & EX1 & _ & EX2 & _).
  assert (ts' = ts) by congruence. subst ts'.
  exists ts. repeat (split; [assumption || lia |]).
  rewrite EX1, EX2. unfold wrap_features, windows_of.
  apply Forall_app. split; apply Forall_forall; intros sample Hs;
    apply in_map_iff in Hs; destruct Hs as (win & <- & Hwin);
    apply in_map_iff in Hwin; destruct Hwin as (i & <- & Hi);
    apply in_seq in Hi; (split;
      [ rewrite length_map, slice_length, ?length_firstn, ?length_skipn; lia
      | apply Forall_forall; intros step Hstep;
        apply in_map_iff in Hstep; destruct Hstep as (x & <- & _);
        reflexivity ]).
Qed.

End PrepareMore.

(** ** The theorems at work on the sample series *)

Lemma consecutive_windows_overlap_witness :
  exists dataX dataY w w' y,
    create_dataset (column one_to_ten) 3 = Ok (dataX, dataY)
    /\ nth_error dataX 0 = Some w
    /\ nth_error dataX 1 = Some w'
    /\ nth_error dataY 0 = Some y
    /\ nth_error w' 0 = nth_error w 1
    /\ nth_error w' 1 = nth_error w 2
    /\ nth_error w' 2 = Some y.
Proof.
  assert (H : 0 + 1 < pair_count (length one_to_ten) 3) by (vm_compute; lia).
  destruct (consecutive_windows_overlap Z one_to_ten 3 0 H)
    as (dataX & dataY & w & w' & y & Hc & Hw & Hw' & Hy & _ & _ & Hshift & Hlast).
  exists dataX, dataY, w, w', y.
  split; [exact Hc |]. split; [exact Hw |]. split; [exact Hw' |].
  split; [exact Hy |].
  split; [apply (Hshift 0); lia |].
  split; [apply (Hshift 1); lia |].
  apply (Hlast 2). reflexivity.
Defined.

Lemma split_is_partition_witness :
  exists parts,
    split (column sample_series) = Ok parts
    /\ part_train_size parts = 20
    /\ part_test_size parts = 10%Z
    /\ part_train parts ++ part_test parts = column sample_series
    /\ length (part_train parts) = 20
    /\ length (part_test parts) = 10.
Proof.
  eexists. split; [vm_compute; reflexivity |].
  match goal with
  | |- part_train_size ?p = _ /\ _ =>
      assert (H : split (column sample_series) = Ok p) by (vm_compute; reflexivity);
      destruct (split_is_partition Z (column sample_series) p H)
        as (_ & _ & _ & Happ & _)
  end.
  split; [reflexivity |]. split; [reflexivity |].
  split; [exact Happ |]. split; reflexivity.
Defined.

Lemma windows_stay_in_partition_witness :
  exists parts trX trY teX teY,
    split (column sample_series) = Ok parts
    /\ create_dataset (part_train parts) look_back = Ok (trX, trY)
    /\ create_dataset (part_test parts) look_back = Ok (teX, teY)
    /\ length trX = length trY
    /\ length teX = length teY.
Proof.
  eexists.
  match goal with
  | |- exists trX trY teX teY, split _ = Ok ?p /\ _ =>
      assert (H : split (column sample_series) = Ok p)
  end.
  { vm_compute. reflexivity. }
  destruct (windows_stay_in_partition Z sample_series _ look_back H)
    as (trX & trY & teX & teY & H1 & H2 & H3 & H4 & _).
  exists trX, trY, teX, teY.
  split; [exact H |]. split; [exact H1 |]. split; [exact H2 |].
  split; [exact H3 | exact H4].
Defined.



Lemma plot_shifts_align_witness :
  exists w ev s',
    prepare (column sample_series) look_back = Ok w
    /\ evaluate (-1)%Z (fun _ => false) (fun _ => false) Z.sqrt
         sample_mean_squared (fun _ => "0"%string)
         (fun (sc x : Z) => x + sc)%Z sample_net 100%Z
         (column sample_series) look_back w
         {| net_params := 0%Z; net_grads := 0%Z; opt_state := 0%Z;
            grad_enabled := true; bar_description := ""; stdout := [];
            calls := [] |}
       = (Ok ev, s')
    /\ length (trainPredict ev) + look_back * 2 + 1 = 20 + look_back
    /\ length (trainPredictPlot (shown ev)) = 30
    /\ length (testPredictPlot (shown ev)) = 30
    /\ nth_error (trainPredictPlot (shown ev)) (0 + look_back)
       = nth_error (trainPredict ev) 0
    /\ nth_error (testPredictPlot (shown ev)) (20 + look_back + 0)
       = nth_error (testPredict ev) 0.
Proof.
  eexists.
  match goal with
  | |- exists ev s', prepare _ _ = Ok ?w /\ _ =>
      assert (H : prepare (column sample_series) look_back = Ok w)
  end.
  { vm_compute. reflexivity. }
  eexists. eexists.
  match goal with
  | |- _ /\ ?run = (Ok ?ev, ?s') /\ _ =>
      assert (Hrun : run = (Ok ev, s')) by (vm_compute; reflexivity)
  end.
  match type of Hrun with
  | _ = (Ok ?ev, ?s') =>
      destruct (plot_shifts_align Z (-1)%Z (fun _ => false) (fun _ => false) Z.sqrt
              sample_mean_squared (fun _ => "0"%string) Z
              (fun (sc x : Z) => x + sc)%Z Z sample_net Z Z 100%Z
              sample_series look_back _
                  {| net_params := 0%Z; net_grads := 0%Z; opt_state := 0%Z;
            grad_enabled := true; bar_description := ""; stdout := [];
            calls := [] |} s' ev H Hrun)
        as (ts & Hts & _ & _ & _ & _ & Hoff & Hc1 & Hc2 & Hn1 & Hn2
            & Htrain & Htest & _)
  end.
  assert (E : train_size (length sample_series) = Ok 20)
    by (vm_compute; reflexivity).
  assert (Ets : ts = 20) by congruence.
  subst ts.
  split; [exact H |]. split; [exact Hrun |]. split; [exact Hoff |].
  split; [exact Hn1 |]. split; [exact Hn2 |].
  split; [apply (Htrain 0) | apply (Htest 0)]; vm_compute; lia.
Defined.

Lemma create_dataset_first_column_witness :
  create_dataset [[1; 10]; [2; 20]; [3; 30]; [4; 40]]%Z 1
  = create_dataset (column [1; 2; 3; 4]%Z) 1.
Proof.
  apply (create_dataset_first_column Z
           [[1; 10]; [2; 20]; [3; 30]; [4; 40]]%Z [1; 2; 3; 4]%Z 1).
  repeat constructor.
Defined.

Lemma split_drops_boundary_pairs_witness :
  exists parts dataX dataY,
    split (column sample_series) = Ok parts
    /\ create_dataset (column sample_series) look_back = Ok (dataX, dataY)
    /\ create_dataset (part_train parts) look_back
       = Ok (firstn 14 dataX, firstn 14 dataY)
    /\ create_dataset (part_test parts) look_back
       = Ok (skipn 20 dataX, skipn 20 dataY).
Proof.
  eexists.
  match goal with
  | |- exists dataX dataY, split _ = Ok ?p /\ _ =>
      assert (H : split (column sample_series) = Ok p)
  end.
  { vm_compute. reflexivity. }
  destruct (split_drops_boundary_pairs Z sample_series _ look_back H)
    as (dataX & dataY & H0 & H1 & H2).
  exists dataX, dataY.
  split; [exact H |]. split; [exact H0 |]. split; [exact H1 | exact H2].
Defined.

Lemma prepare_returns_iff_witness :
  (exists w, prepare (column sample_series) look_back = Ok w)
  <-> look_back + 2 <= 20 /\ look_back + 2 <= length sample_series - 20.
Proof.
  apply (prepare_returns_iff Z sample_series look_back 20).
  vm_compute. reflexivity.
Defined.

Lemma prepare_needs_19_values_witness :
  exists w, prepare (column sample_series) look_back = Ok w.
Proof.
  assert (H : length sample_series < N.to_nat 65536)
    by (change (length sample_series) with 30; lia).
  apply (proj1 (prepare_needs_19_values Z sample_series H)).
  change (length sample_series) with 30. lia.
Defined.

Lemma prepared_shapes_witness :
  exists w ts,
    prepare (column sample_series) look_back = Ok w
    /\ train_size (length sample_series) = Ok ts
    /\ length (trainX w) + length (testX w) + (2 * look_back + 2)
       = length sample_series.
Proof.
  eexists.
  match goal with
  | |- exists ts, prepare _ _ = Ok ?w /\ _ =>
      assert (H : prepare (column sample_series) look_back = Ok w)
  end.
  { vm_compute. reflexivity. }
  destruct (prepared_shapes Z sample_series look_back _ H)
    as (ts & Hts & _ & _ & _ & _ & Hsum & _).
  exists ts. split; [exact H |]. split; [exact Hts | exact Hsum].
Defined.



Lemma evaluation_repeatable_witness :
  exists w ev s1 s2,
    prepare (column sample_series) look_back = Ok w
    /\ evaluate (-1)%Z (fun _ => false) (fun _ => false) Z.sqrt
         sample_mean_squared (fun _ => "0"%string)
         (fun (sc x : Z) => x + sc)%Z sample_net 100%Z
         (column sample_series) look_back w
         {| net_params := 0%Z; net_grads := 0%Z; opt_state := 0%Z;
            grad_enabled := true; bar_description := ""; stdout := [];
            calls := [] |}
       = (Ok ev, s1)
    /\ evaluate (-1)%Z (fun _ => false) (fun _ => false) Z.sqrt
         sample_mean_squared (fun _ => "0"%string)
         (fun (sc x : Z) => x + sc)%Z sample_net 100%Z
         (column sample_series) look_back w s1
       = (Ok ev, s2).
Proof.
  eexists.
  match goal with
  | |- exists ev s1 s2, prepare _ _ = Ok ?w /\ _ =>
      assert (H : prepare (column sample_series) look_back = Ok w)
  end.
  { vm_compute. reflexivity. }
  eexists. eexists.
  match goal with
  | |- exists s2, _ /\ ?run = (Ok ?ev, ?s1) /\ _ =>
      assert (Hrun : run = (Ok ev, s1)) by (vm_compute; reflexivity)
  end.
  match type of Hrun with
  | _ = (Ok ?ev, ?s1) =>
      destruct (evaluation_repeatable Z (-1)%Z (fun _ => false) (fun _ => false) Z.sqrt
              sample_mean_squared (fun _ => "0"%string) Z
              (fun (sc x : Z) => x + sc)%Z Z sample_net Z Z 100%Z
              sample_series look_back _
                  {| net_params := 0%Z; net_grads := 0%Z; opt_state := 0%Z;
            grad_enabled := true; bar_description := ""; stdout := [];
            calls := [] |} s1 ev H Hrun)
        as (s2 & H2 & _)
  end.
  exists s2. split; [exact H |]. split; [exact Hrun | exact H2].
Defined.

Lemma notebook_runs_witness :
  exists w seen ev s',
    prepare (column (map (fun x => x - 100)%Z sample_series_40)) look_back = Ok w
    /\ notebook (-1)%Z (fun _ => false) (fun _ => false) Z.sub (fun x => x * x)%Z
      sample_total Z.sqrt sample_mean_squared (fun _ => "0"%string)
      (fun _ => "0"%string)
      (fun _ : array2 Z => 100%Z) (fun (sc x : Z) => x - sc)%Z
      (fun (sc x : Z) => x + sc)%Z sample_net
      (fun (p : Z) (_ : graph Z) => p) Z.add 0%Z
      (fun _ : Z => 0%Z) (fun (o p g : Z) => (o + 1, p - g)%Z)
      (column sample_series_40)
      {| net_params := 0%Z; net_grads := 0%Z; opt_state := 0%Z;
            grad_enabled := true; bar_description := ""; stdout := [];
            calls := [] |}
    = (Ok (seen, ev), s')
    /\ trainX_15_0 seen = [16%Z]
    /\ trainY_15 seen = 21%Z
    /\ stdout s' = ["Train Score: 0 RMSE"; "Test Score: 0 RMSE"]%string.
Proof.
  eexists.
  match goal with
  | |- exists seen ev s', prepare ?d ?l = Ok ?w /\ _ =>
      assert (H : prepare d l = Ok w) by (vm_compute; reflexivity);
      assert (H15 : 15 < length (trainX w)) by (vm_compute; lia);
      destruct (notebook_runs Z (-1)%Z (fun _ => false) (fun _ => false) Z.sub (fun x => x * x)%Z
      sample_total Z.sqrt sample_mean_squared (fun _ => "0"%string)
      (fun _ => "0"%string)
                  Z (fun _ : array2 Z => 100%Z) (fun (sc x : Z) => x - sc)%Z
                  (fun (sc x : Z) => x + sc)%Z Z sample_net Z
                  (fun (p : Z) (_ : graph Z) => p) Z.add 0%Z Z
                  (fun _ : Z => 0%Z) (fun (o p g : Z) => (o + 1, p - g)%Z)
                  sample_series_40 w
                  {| net_params := 0%Z; net_grads := 0%Z; opt_state := 0%Z;
            grad_enabled := true; bar_description := ""; stdout := [];
            calls := [] |} eq_refl H H15 eq_refl
                  ltac:(vm_compute; reflexivity))
        as (seen & ev & s' & Hrun & Hx & Hy & _ & _ & _ & _ & Hout)
  end.
  exists seen, ev, s'. split; [exact H |]. split; [exact Hrun |].
  change (Some (trainX_15_0 seen) = Some [16%Z]) in Hx.
  change (Some (trainY_15 seen) = Some 21%Z) in Hy.
  split; [congruence |]. split; [congruence | exact Hout].
Defined.

Lemma look_at_data_needs_16_windows_witness :
  exists w seen,
    prepare (column (map (fun x => x - 100)%Z sample_series_40)) look_back = Ok w
    /\ look_at_data w = Ok seen
    /\ trainX_15_0 seen = [16%Z]
    /\ trainY_15 seen = 21%Z.
Proof.
  eexists.
  match goal with
  | |- exists seen, prepare ?d ?l = Ok ?w /\ _ =>
      assert (H : prepare d l = Ok w) by (vm_compute; reflexivity);
      assert (H15 : 15 < length (trainX w)) by (vm_compute; lia);
      destruct (look_at_data_needs_16_windows Z _ look_back w H
                  ltac:(unfold look_back; lia))
        as [Hshow _];
      destruct (Hshow H15) as (seen & x & y & Hlook & Ex & Ey & Hx & Hy & _)
  end.
  exists seen. split; [exact H |]. split; [exact Hlook |].
  change (Some 16%Z = Some x) in Ex. change (Some 21%Z = Some y) in Ey.
  split; [rewrite Hx | rewrite Hy]; congruence.
Defined.

(** ** The scaler of the spec *)



